(** * proxycore: result-set rows and endpoint resolution

    A shallow embedding of [proxycore/resultset.go] and of the endpoint
    code that follows it in the same source unit ([Endpoint],
    [defaultEndpointFactory], [astraResolver], [copyTLSConfig]).

    Conventions
    - Go [int] is [Z]; a slice is a [list]; indexing outside a slice panics.
    - A Go function returning [(T, error)] returns a pair whose second
      component is [option error] ([None] is the nil error).
    - A run-time panic is a separate outcome ([Panics]), never an [error].
    - [*tls.Config] values live in an explicit store; a pointer is an
      optional location ([None] is nil).
    - Library code that is called but is not part of the package (the
      wire codec, crypto/x509, net, net/http, encoding/json) is an
      interface (a type class); the theorems hold for every instance. *)

From Stdlib Require Import ZArith Ascii Strings.Byte DecimalString HexadecimalString.
From stdpp Require Import gmap strings list vector.

Local Open Scope string_scope.
Local Open Scope Z_scope.

#[global] Instance byte_eq_decision : EqDecision byte := Byte.byte_eq_dec.

(** ** Outcomes of running Go code *)

Inductive panic : Type :=
| IndexOutOfRange (i : Z) (len : nat)
| SliceBoundsOutOfRange (lo : Z) (len : nat)
| InterfaceConversion (want : string)
| NilPointerDereference.

Inductive outcome (A : Type) : Type :=
| Returns (a : A)
| Panics (p : panic).
Arguments Returns {A} a.
Arguments Panics {A} p.

#[global] Instance outcome_ret : MRet outcome := fun A a => Returns a.
#[global] Instance outcome_bind : MBind outcome := fun A B f m =>
  match m with
  | Returns a => f a
  | Panics p => Panics p
  end.

(** [l[i]] for a Go [int] index. *)
Definition index {A} (l : list A) (i : Z) : outcome A :=
  if i <? 0 then Panics (IndexOutOfRange i (length l))
  else match l !! Z.to_nat i with
       | Some x => Returns x
       | None => Panics (IndexOutOfRange i (length l))
       end.

(** [l[lo:]] for a Go [int] bound. *)
Definition slice_from {A} (l : list A) (lo : Z) : outcome (list A) :=
  if (lo <? 0) || (Z.of_nat (length l) <? lo)
  then Panics (SliceBoundsOutOfRange lo (length l))
  else Returns (drop (Z.to_nat lo) l).

(** ** Errors *)

(** The package-level sentinel [ColumnNameNotFound] is a value of its own:
    an error built elsewhere with the same text is a different error. *)
Inductive error : Type :=
| ColumnNameNotFound
| errorString (s : string).

Definition Error (e : error) : string :=
  match e with
  | ColumnNameNotFound => "column name not found"
  | errorString s => s
  end.

Definition errors_New (s : string) : error := errorString s.

(** [errors.Is(err, ColumnNameNotFound)]; no error of this package wraps
    another one (the formats use [%v], not [%w]). *)
Definition errors_Is_ColumnNameNotFound (err : error) : bool :=
  match err with
  | ColumnNameNotFound => true
  | errorString _ => false
  end.

(** ** Formatting helpers of the Go library

    [strconv], [encoding/hex] and [net] are not part of the package; the
    functions below follow the library's behaviour on the inputs the
    package gives them. *)

Definition itoa (n : Z) : string :=
  DecimalString.NilZero.string_of_int (Z.to_int n).

Definition hextable : string := "0123456789abcdef".

Definition hexdigit (n : N) : Ascii.ascii :=
  match String.get (N.to_nat n) hextable with
  | Some c => c
  | None => "0"%char
  end.

(** [hex.EncodeToString]: two lower-case digits per byte. *)
Fixpoint hex_EncodeToString (src : list byte) : string :=
  match src with
  | [] => ""
  | b :: bs =>
      String (hexdigit (N.shiftr (Byte.to_N b) 4))
        (String (hexdigit (N.land (Byte.to_N b) 15)) (hex_EncodeToString bs))
  end.

(** Inverse of the digit table, used to show the encoding injective. *)
Definition unhexdigit (c : Ascii.ascii) : option N :=
  (fix find (n : nat) (s : string) : option N :=
     match s with
     | EmptyString => None
     | String d s' => if Ascii.eqb c d then Some (N.of_nat n) else find (S n) s'
     end) 0%nat hextable.

Definition unhex (hi lo : Ascii.ascii) : option byte :=
  match unhexdigit hi, unhexdigit lo with
  | Some h, Some l => Byte.of_N (h * 16 + l)
  | _, _ => None
  end.

(** ** net.IP *)

Definition IP := list byte.

Definition IPv4len : nat := 4.
Definition IPv6len : nat := 16.

Definition v4InV6Prefix : list byte :=
  [x00; x00; x00; x00; x00; x00; x00; x00; x00; x00; xff; xff].

Definition IPv4 (a b c d : byte) : IP := (v4InV6Prefix ++ [a; b; c; d])%list.

Definition IPv4zero : IP := IPv4 x00 x00 x00 x00.
Definition IPv6zero : IP := replicate 16 x00.

Definition bytes_Equal (a b : list byte) : bool := bool_decide (a = b).

Definition IP_Equal (ip x : IP) : bool :=
  if (length ip =? length x)%nat then bytes_Equal ip x
  else if (length ip =? IPv4len)%nat && (length x =? IPv6len)%nat
  then bytes_Equal (take 12 x) v4InV6Prefix && bytes_Equal ip (drop 12 x)
  else if (length ip =? IPv6len)%nat && (length x =? IPv4len)%nat
  then bytes_Equal (take 12 ip) v4InV6Prefix && bytes_Equal (drop 12 ip) x
  else false.

Definition isZeros (p : list byte) : bool := forallb (fun b => bool_decide (b = x00)) p.

(** [ip.To4()]; the nil result is the empty list. *)
Definition IP_To4 (ip : IP) : IP :=
  if (length ip =? IPv4len)%nat then ip
  else if (length ip =? IPv6len)%nat && isZeros (take 10 ip)
          && bool_decide (ip !! 10%nat = Some xff) && bool_decide (ip !! 11%nat = Some xff)
  then take 4 (drop 12 ip)
  else [].

Definition ubtoa (b : byte) : string :=
  DecimalString.NilZero.string_of_uint (N.to_uint (Byte.to_N b)).

Definition appendHex (i : N) : string :=
  HexadecimalString.NilZero.string_of_uint (N.to_hex_uint i).

Definition byte_at (p : list byte) (i : Z) : N :=
  match p !! Z.to_nat i with
  | Some b => Byte.to_N b
  | None => 0%N
  end.

(** The inner loop of [IP.String]: the end of the run of zero 16-bit
    groups that starts at byte offset [j]. *)
Fixpoint zero_run_end (fuel : nat) (p : list byte) (j : Z) : Z :=
  match fuel with
  | O => j
  | S fuel' =>
      if (j <? 16) && (byte_at p j =? 0)%N && (byte_at p (j + 1) =? 0)%N
      then zero_run_end fuel' p (j + 2)
      else j
  end.

(** The outer loop: the longest run [e0, e1) of zero groups, leftmost
    among the longest. *)
Fixpoint longest_zero_run (fuel : nat) (p : list byte) (i e0 e1 : Z) : Z * Z :=
  match fuel with
  | O => (e0, e1)
  | S fuel' =>
      if i <? 16 then
        let j := zero_run_end 8 p i in
        if (i <? j) && (e1 - e0 <? j - i)
        then longest_zero_run fuel' p (j + 2) i j
        else longest_zero_run fuel' p (i + 2) e0 e1
      else (e0, e1)
  end.

(** The printing loop, with [::] in place of the run [e0, e1). *)
Fixpoint print_groups (fuel : nat) (p : list byte) (e0 e1 i : Z) : string :=
  match fuel with
  | O => ""
  | S fuel' =>
      if i <? 16 then
        if i =? e0 then
          if 16 <=? e1 then "::"
          else "::" +:+ appendHex (N.lor (N.shiftl (byte_at p e1) 8) (byte_at p (e1 + 1)))
                    +:+ print_groups fuel' p e0 e1 (e1 + 2)
        else
          (if 0 <? i then ":" else "")
            +:+ appendHex (N.lor (N.shiftl (byte_at p i) 8) (byte_at p (i + 1)))
            +:+ print_groups fuel' p e0 e1 (i + 2)
      else ""
  end.

Definition IP_String (ip : IP) : string :=
  if (length ip =? 0)%nat then "<nil>"
  else match IP_To4 ip with
       | [a; b; c; d] => ubtoa a +:+ "." +:+ ubtoa b +:+ "." +:+ ubtoa c +:+ "." +:+ ubtoa d
       | _ =>
           if negb (length ip =? IPv6len)%nat then "?" +:+ hex_EncodeToString ip
           else
             let '(e0, e1) := longest_zero_run 8 ip 0 (-1) (-1) in
             let '(e0, e1) := if e1 - e0 <=? 2 then (-1, -1) else (e0, e1) in
             print_groups 8 ip e0 e1 0
       end.

(** ** primitive.UUID

    The protocol library's [UUID] is a [[16]byte]; its [String] method
    prints the canonical 8-4-4-4-12 lower-case hexadecimal text. *)

Definition UUID := vec byte 16.

Definition UUID_String (u : UUID) : string :=
  let b := vec_to_list u in
  hex_EncodeToString (take 4 b) +:+ "-"
    +:+ hex_EncodeToString (take 2 (drop 4 b)) +:+ "-"
    +:+ hex_EncodeToString (take 2 (drop 6 b)) +:+ "-"
    +:+ hex_EncodeToString (take 2 (drop 8 b)) +:+ "-"
    +:+ hex_EncodeToString (drop 10 b).

(** ** Decoded values ([interface{}]) *)

Inductive Value : Type :=
| VNil
| VIP (ip : IP)
| VUUID (u : UUID)
| VOther (repr : string).

(** [v.(net.IP)] *)
Definition assert_IP (v : Value) : outcome IP :=
  match v with
  | VIP ip => Returns ip
  | _ => Panics (InterfaceConversion "net.IP")
  end.

(** [v.(primitive.UUID)] *)
Definition assert_UUID (v : Value) : outcome UUID :=
  match v with
  | VUUID u => Returns u
  | _ => Panics (InterfaceConversion "primitive.UUID")
  end.

(** ** The wire codec (interface)

    [DecodeType] and the protocol library's data types and versions are
    declared outside this source unit; they are parameters of the
    development. *)

Definition Column := list byte.

Class Codec : Type := {
  DataType : Type;
  ProtocolVersion : Type;
  DecodeType : DataType -> ProtocolVersion -> Column -> Value * option error
}.

(** ** resultset.go *)

Section ResultSet.
Context `{Codec}.

Record ColumnMetadata : Type := {
  Name : string;
  Type_ : DataType
}.

Record RowsResult : Type := {
  Columns : list ColumnMetadata;
  Data : list (list Column)
}.

Record ResultSet : Type := {
  columnIndexes : gmap string Z;
  result : RowsResult;
  version : ProtocolVersion
}.

Record Row : Type := {
  resultSet : ResultSet;
  row : list Column
}.

(** The loop of [NewResultSet]: [columnIndexes[column.Name] = i] for each
    column, in metadata order, starting at position [i]. *)
Fixpoint index_columns (cols : list ColumnMetadata) (i : Z) (m : gmap string Z)
  : gmap string Z :=
  match cols with
  | [] => m
  | column :: cols' => index_columns cols' (i + 1) (<[Name column := i]> m)
  end.

Definition NewResultSet (rows : RowsResult) (v : ProtocolVersion) : ResultSet :=
  {| columnIndexes := index_columns (Columns rows) 0 ∅;
     result := rows;
     version := v |}.

Definition ResultSet_Row (rs : ResultSet) (i : Z) : outcome Row :=
  r ← index (Data (result rs)) i;
  mret {| resultSet := rs; row := r |}.

Definition RowCount (rs : ResultSet) : Z := Z.of_nat (length (Data (result rs))).

Definition ByPos (r : Row) (i : Z) : outcome (Value * option error) :=
  column ← index (Columns (result (resultSet r))) i;
  raw ← index (row r) i;
  let '(val, err) := DecodeType (Type_ column) (version (resultSet r)) raw in
  match err with
  | Some e => mret (VNil, Some e)
  | None => mret (val, None)
  end.

Definition ByName (r : Row) (n : string) : outcome (Value * option error) :=
  match columnIndexes (resultSet r) !! n with
  | None => mret (VNil, Some ColumnNameNotFound)
  | Some i => ByPos r i
  end.

End ResultSet.

(** ** Library interfaces used by the endpoint code *)

(** [x509.VerifyOptions], restricted to the fields the code sets. *)
Record VerifyOptions (CertPool Time : Type) : Type := {
  Roots : CertPool;
  CurrentTime : Time;
  DNSName : string;
  Intermediates : CertPool
}.
Arguments Roots {CertPool Time} _.
Arguments CurrentTime {CertPool Time} _.
Arguments DNSName {CertPool Time} _.
Arguments Intermediates {CertPool Time} _.

(** crypto/x509 and the clock. *)
Class X509 : Type := {
  Certificate : Type;
  CertPool : Type;
  TLSCertificate : Type;
  Time : Type;
  ParseCertificate : list byte -> Certificate + error;
  NewCertPool : CertPool;
  AddCert : CertPool -> Certificate -> CertPool;
  Verify : Certificate -> VerifyOptions CertPool Time
           -> list (list Certificate) * option error
}.

(** net and strconv. *)
Class Net : Type := {
  LookupHost : string -> list string * option error;
  Atoi : string -> Z * option error
}.

(** ** The secure connect bundle and the store of TLS configurations *)

Abbreviation loc := nat (only parsing).
Definition ptr := option loc.

Module Bundle.
(** Modelled from the spec: the [Bundle] type is declared outside this
    source unit; it holds the base TLS configuration and the host and port
    of the metadata endpoint. *)
Record t : Type := {
  tlsConfig : ptr;
  host : string;
  port : Z
}.
End Bundle.

(** The function literal assigned to [VerifyPeerCertificate] in
    [copyTLSConfig], as the pair of the variables it captures. *)
Record verifyClosure : Type := {
  captured_tlsConfig : ptr;
  captured_bundle : Bundle.t
}.

(** [tls.Config], restricted to the fields the spec and the code name. *)
Record Config `{X509} : Type := {
  ServerName : string;
  InsecureSkipVerify : bool;
  RootCAs : CertPool;
  Certificates : list TLSCertificate;
  VerifyPeerCertificate : option verifyClosure
}.

Abbreviation store := (list Config) (only parsing).

(** Go code that reads and writes the store and may panic. *)
Definition Go `{X509} (A : Type) : Type := store -> outcome (A * store).

#[global] Instance Go_ret `{X509} : MRet Go := fun A a σ => Returns (a, σ).
#[global] Instance Go_bind `{X509} : MBind Go := fun A B f m σ =>
  match m σ with
  | Returns (a, σ') => f a σ'
  | Panics p => Panics p
  end.

Definition lift `{X509} {A} (o : outcome A) : Go A := fun σ =>
  match o with
  | Returns a => Returns (a, σ)
  | Panics p => Panics p
  end.

(** [*p] *)
Definition load `{X509} (p : ptr) : Go Config := fun σ =>
  match p with
  | None => Panics NilPointerDereference
  | Some l => match σ !! l with
              | Some c => Returns (c, σ)
              | None => Panics NilPointerDereference
              end
  end.

(** [*p = f ( *p )], for a field assignment through [p]. *)
Definition modify `{X509} (p : ptr) (f : Config -> Config) : Go unit := fun σ =>
  match p with
  | None => Panics NilPointerDereference
  | Some l => match σ !! l with
              | Some c => Returns (tt, <[l := f c]> σ)
              | None => Panics NilPointerDereference
              end
  end.

(** A new object, at an address no live object has. *)
Definition alloc `{X509} (c : Config) : Go ptr := fun σ =>
  Returns (Some (length σ), (σ ++ [c])%list).

Definition set_ServerName `{X509} (s : string) (c : Config) : Config :=
  {| ServerName := s;
     InsecureSkipVerify := InsecureSkipVerify c;
     RootCAs := RootCAs c;
     Certificates := Certificates c;
     VerifyPeerCertificate := VerifyPeerCertificate c |}.

Definition set_InsecureSkipVerify `{X509} (b : bool) (c : Config) : Config :=
  {| ServerName := ServerName c;
     InsecureSkipVerify := b;
     RootCAs := RootCAs c;
     Certificates := Certificates c;
     VerifyPeerCertificate := VerifyPeerCertificate c |}.

Definition set_VerifyPeerCertificate `{X509} (f : option verifyClosure) (c : Config)
  : Config :=
  {| ServerName := ServerName c;
     InsecureSkipVerify := InsecureSkipVerify c;
     RootCAs := RootCAs c;
     Certificates := Certificates c;
     VerifyPeerCertificate := f |}.

(** Modelled from the spec: [Bundle.Host] is declared outside this source
    unit; the bundle exposes the host of the cloud metadata endpoint. *)
Definition Bundle_Host (b : Bundle.t) : string := Bundle.host b.

(** Modelled from the spec: [Bundle.Port] is declared outside this source
    unit; the bundle exposes the port of the cloud metadata endpoint. *)
Definition Bundle_Port (b : Bundle.t) : Z := Bundle.port b.

(** Modelled from the spec: [Bundle.TLSConfig] is declared outside this
    source unit.  The spec has the bundle's base TLS configuration (CA
    pool, optional client certificate) consumed read-only, and makes
    cloning it the first step of building a per-node configuration;
    [copyTLSConfig] performs no copy of its own, so the clone is what
    [TLSConfig] returns: a new object with the fields of the base.  As in
    [tls.Config.Clone], the clone of nil is nil. *)
Definition Bundle_TLSConfig `{X509} (b : Bundle.t) : Go ptr :=
  match Bundle.tlsConfig b with
  | None => mret None
  | Some l => c ← load (Some l); alloc c
  end.

(** ** Endpoints *)

Module defaultEndpoint.
Record t : Type := { addr : string }.

Definition Key (e : t) : string := addr e.
Definition String (e : t) : string := Key e.
Definition IsResolved (e : t) : bool := true.
Definition Addr (e : t) : string := addr e.
Definition TlsConfig (e : t) : ptr := None.
End defaultEndpoint.

Module astraEndpoint.
Record t : Type := { addr : string; tlsConfig : ptr }.

(** [fmt.Sprintf("%s:%s", a.addr, a.tlsConfig.ServerName)] *)
Definition Key `{X509} (a : t) : Go string :=
  c ← load (tlsConfig a);
  mret (addr a +:+ ":" +:+ ServerName c).
Definition String `{X509} (a : t) : Go string := Key a.
Definition Addr (a : t) : string := addr a.
Definition IsResolved (a : t) : bool := false.
Definition TlsConfig (a : t) : ptr := tlsConfig a.
End astraEndpoint.

(** The interface [Endpoint] with its two implementations. *)
Inductive Endpoint : Type :=
| DefaultEndpoint (e : defaultEndpoint.t)
| AstraEndpoint (a : astraEndpoint.t).

Definition Endpoint_String `{X509} (e : Endpoint) : Go string :=
  match e with
  | DefaultEndpoint e => mret (defaultEndpoint.String e)
  | AstraEndpoint a => astraEndpoint.String a
  end.

Definition Endpoint_Key `{X509} (e : Endpoint) : Go string :=
  match e with
  | DefaultEndpoint e => mret (defaultEndpoint.Key e)
  | AstraEndpoint a => astraEndpoint.Key a
  end.

Definition Endpoint_Addr (e : Endpoint) : string :=
  match e with
  | DefaultEndpoint e => defaultEndpoint.Addr e
  | AstraEndpoint a => astraEndpoint.Addr a
  end.

Definition Endpoint_IsResolved (e : Endpoint) : bool :=
  match e with
  | DefaultEndpoint e => defaultEndpoint.IsResolved e
  | AstraEndpoint a => astraEndpoint.IsResolved a
  end.

Definition Endpoint_TlsConfig (e : Endpoint) : ptr :=
  match e with
  | DefaultEndpoint e => defaultEndpoint.TlsConfig e
  | AstraEndpoint a => astraEndpoint.TlsConfig a
  end.

(** ** The TLS trust builder *)

(** The first loop of the verification callback: parse every raw
    certificate, stopping at the first one that does not parse. *)
Fixpoint parse_certs `{X509} (rawCerts : list (list byte)) : list Certificate + error :=
  match rawCerts with
  | [] => inl []
  | asn1Data :: rawCerts' =>
      match ParseCertificate asn1Data with
      | inr err =>
          inr (errors_New ("tls: failed to parse certificate from server: " +:+ Error err))
      | inl cert =>
          match parse_certs rawCerts' with
          | inl certs => inl (cert :: certs)
          | inr e => inr e
          end
      end
  end.

(** The second loop: [opts.Intermediates.AddCert(cert)] for each [cert]. *)
Definition add_intermediates `{X509} (certs : list Certificate) (pool : CertPool)
  : CertPool :=
  fold_left AddCert certs pool.

(** A call of the function stored in [VerifyPeerCertificate], at the
    instant [now] that [time.Now()] returns during the call. *)
Definition call_VerifyPeerCertificate `{X509} (f : verifyClosure)
    (rawCerts : list (list byte)) (verifiedChains : list (list Certificate))
    (now : Time) : Go (option error) :=
  match parse_certs rawCerts with
  | inr e => mret (Some e)
  | inl certs =>
      tlsConfig ← load (captured_tlsConfig f);
      let opts := {| Roots := RootCAs tlsConfig;
                     CurrentTime := now;
                     DNSName := Bundle_Host (captured_bundle f);
                     Intermediates := NewCertPool |} in
      rest ← lift (slice_from certs 1);
      let opts := {| Roots := Roots opts;
                     CurrentTime := CurrentTime opts;
                     DNSName := DNSName opts;
                     Intermediates := add_intermediates rest (Intermediates opts) |} in
      leaf ← lift (index certs 0);
      let '(verifiedChains, err) := Verify leaf opts in
      mret err
  end.

Definition copyTLSConfig `{X509} (bundle : Bundle.t) (serverName : string) : Go ptr :=
  tlsConfig ← Bundle_TLSConfig bundle;
  modify tlsConfig (set_ServerName serverName);;
  modify tlsConfig (set_InsecureSkipVerify true);;
  modify tlsConfig (set_VerifyPeerCertificate
                      (Some {| captured_tlsConfig := tlsConfig;
                               captured_bundle := bundle |}));;
  mret tlsConfig.

(** ** The direct strategy *)

Module defaultEndpointFactory.
Record t : Type := {
  contactPoints : list Endpoint;
  defaultPort : Z
}.

Definition ContactPoints (d : t) : list Endpoint := contactPoints d.

(** [err != nil && !errors.Is(err, ColumnNameNotFound)] *)
Definition is_fatal (err : option error) : bool :=
  match err with
  | Some e => negb (errors_Is_ColumnNameNotFound e)
  | None => false
  end.

Definition Create `{Codec} (d : t) (row : Row) : outcome (option Endpoint * option error) :=
  '(peer, err) ← ByName row "peer";
  if is_fatal err then mret (None, err)
  else
    '(rpcAddress, err) ← ByName row "rpc_address";
    match err with
    | Some e => mret (None, Some e)
    | None =>
        addr ← assert_IP rpcAddress;
        addr ← (if IP_Equal addr IPv4zero || IP_Equal addr IPv6zero
                then assert_IP peer else mret addr);
        mret (Some (DefaultEndpoint
                      {| defaultEndpoint.addr :=
                           IP_String addr +:+ ":" +:+ itoa (defaultPort d) |}),
              None)
    end.
End defaultEndpointFactory.

(** [strings.Split(s, ":")] *)
Fixpoint strings_Split_colon (s : string) : list string :=
  match s with
  | EmptyString => [""]
  | String c s' =>
      if Ascii.eqb c ":" then "" :: strings_Split_colon s'
      else match strings_Split_colon s' with
           | part :: parts => String c part :: parts
           | [] => [String c ""]
           end
  end.

(** The loop of [ResolveWithDefaultPort]; [inr] is the early return. *)
Fixpoint resolve_contact_points `{Net} (contactPoints : list string) (defaultPort : Z)
    (endpoints : list Endpoint) : outcome (list Endpoint + error) :=
  match contactPoints with
  | [] => mret (inl endpoints)
  | cp :: contactPoints' =>
      let parts := strings_Split_colon cp in
      host ← index parts 0;
      let '(addrs, err) := LookupHost host in
      match err with
      | Some e =>
          mret (inr (errorString
                       ("unable to resolve contact point " +:+ cp +:+ ": " +:+ Error e)))
      | None =>
          if (1 <? Z.of_nat (length parts)) then
            p ← index parts 1;
            let '(port, err) := Atoi p in
            match err with
            | Some e =>
                mret (inr (errorString
                             ("contact point " +:+ cp +:+ " has invalid port: " +:+ Error e)))
            | None =>
                resolve_contact_points contactPoints' defaultPort
                  (endpoints ++ map (fun addr => DefaultEndpoint
                       {| defaultEndpoint.addr := addr +:+ ":" +:+ itoa port |}) addrs)%list
            end
          else
            resolve_contact_points contactPoints' defaultPort
              (endpoints ++ map (fun addr => DefaultEndpoint
                   {| defaultEndpoint.addr := addr +:+ ":" +:+ itoa defaultPort |}) addrs)%list
      end
  end.

(** ** The cloud strategy *)

Record contactInfo : Type := {
  TypeName : string;
  LocalDc : string;
  SniProxyAddress : string;
  ContactPoints : list string
}.

Record astraMetadata : Type := {
  Version : Z;
  Region : string;
  ContactInfo : contactInfo
}.

(** [http.Response]: the status code and what reading the body to its
    end returns. *)
Record Response : Type := {
  StatusCode : Z;
  Body : string * option error
}.

Definition ioutil_ReadAll (body : string * option error) : string * option error := body.

(** net/http and encoding/json.  [http_Get] is given the configuration
    the client was built with; [json_Unmarshal] returns the new value of
    the [*astraMetadata] it was asked to fill ([None] is nil). *)
Class Http `{X509} : Type := {
  http_Get : option Config -> string -> Response + error;
  json_Unmarshal : string -> option astraMetadata * option error
}.

Module astraResolver.
Record t : Type := {
  contactPoints : list Endpoint;
  host : string;
  bundle : Bundle.t
}.

Definition ContactPoints (a : t) : list Endpoint := contactPoints a.

Definition Create `{Codec} `{X509} (a : t) (row : Row)
  : Go (option Endpoint * option error) :=
  '(hostId, err) ← lift (ByName row "host_id");
  match err with
  | Some e => mret (None, Some e)
  | None =>
      uuid ← lift (assert_UUID hostId);
      tlsConfig ← copyTLSConfig (bundle a) (UUID_String uuid);
      mret (Some (AstraEndpoint {| astraEndpoint.addr := host a;
                                   astraEndpoint.tlsConfig := tlsConfig |}),
            None)
  end.
End astraResolver.

(** The interface [EndpointFactory] with its two implementations. *)
Inductive EndpointFactory : Type :=
| DefaultEndpointFactory (d : defaultEndpointFactory.t)
| AstraResolver (a : astraResolver.t).

Definition EndpointFactory_ContactPoints (f : EndpointFactory) : list Endpoint :=
  match f with
  | DefaultEndpointFactory d => defaultEndpointFactory.ContactPoints d
  | AstraResolver a => astraResolver.ContactPoints a
  end.

Definition EndpointFactory_Create `{Codec} `{X509} (f : EndpointFactory) (row : Row)
  : Go (option Endpoint * option error) :=
  match f with
  | DefaultEndpointFactory d => lift (defaultEndpointFactory.Create d row)
  | AstraResolver a => astraResolver.Create a row
  end.

Definition ResolveWithDefaultPort `{Net} (contactPoints : list string) (defaultPort : Z)
  : outcome (option EndpointFactory * option error) :=
  r ← resolve_contact_points contactPoints defaultPort [];
  match r with
  | inr e => mret (None, Some e)
  | inl endpoints =>
      mret (Some (DefaultEndpointFactory
                    {| defaultEndpointFactory.contactPoints := endpoints;
                       defaultEndpointFactory.defaultPort := defaultPort |}),
            None)
  end.

Definition Resolve `{Net} (contactPoints : list string)
  : outcome (option EndpointFactory * option error) :=
  ResolveWithDefaultPort contactPoints 9042.

(** The loop of [ResolveAstra]: one endpoint per contact point, each with
    a configuration of its own. *)
Fixpoint astra_contact_points `{X509} (bundle : Bundle.t) (sniProxyAddress : string)
    (cps : list string) (endpoints : list Endpoint) : Go (list Endpoint) :=
  match cps with
  | [] => mret endpoints
  | cp :: cps' =>
      tlsConfig ← copyTLSConfig bundle cp;
      astra_contact_points bundle sniProxyAddress cps'
        (endpoints ++ [AstraEndpoint {| astraEndpoint.addr := sniProxyAddress;
                                        astraEndpoint.tlsConfig := tlsConfig |}])%list
  end.

Definition metadata_url (bundle : Bundle.t) : string :=
  "https://" +:+ Bundle_Host bundle +:+ ":" +:+ itoa (Bundle_Port bundle) +:+ "/metadata".

(** The current value behind a pointer, if any; for handing a
    configuration to the HTTP client. *)
Definition peek `{X509} (p : ptr) : Go (option Config) := fun σ =>
  Returns (p ≫= (fun l => σ !! l), σ).

Definition ResolveAstra `{X509} `{!Http} (bundle : Bundle.t)
  : Go (option EndpointFactory * option error) :=
  let url := metadata_url bundle in
  clientConfig ← Bundle_TLSConfig bundle;
  TLSClientConfig ← peek clientConfig;
  match http_Get TLSClientConfig url with
  | inr err =>
      mret (None, Some (errorString
                          ("unable to get metadata from " +:+ url +:+ ": " +:+ Error err)))
  | inl response =>
      let '(body, err) := ioutil_ReadAll (Body response) in
      match err with
      | Some e => mret (None, Some e)
      | None =>
          let '(metadata, err) := json_Unmarshal body in
          match err with
          | Some e => mret (None, Some e)
          | None =>
              match metadata with
              | None => lift (Panics NilPointerDereference)
              | Some metadata =>
                  endpoints ← astra_contact_points bundle
                                (SniProxyAddress (ContactInfo metadata))
                                (ContactPoints (ContactInfo metadata)) [];
                  mret (Some (AstraResolver
                                {| astraResolver.contactPoints := endpoints;
                                   astraResolver.host :=
                                     SniProxyAddress (ContactInfo metadata);
                                   astraResolver.bundle := bundle |}),
                        None)
              end
          end
      end
  end.

(** ** Words of the specification *)

(** The unspecified ("any") address: all-zero IPv4, in its 4-byte form or
    its 16-byte form [net.IPv4zero], or all-zero IPv6. *)
Definition unspecified (ip : IP) : Prop :=
  ip = [x00; x00; x00; x00] ∨ ip = IPv4zero ∨ ip = IPv6zero.

(** Column [j] is the last column of the metadata that bears the name [n]. *)
Definition last_named `{Codec} (cols : list ColumnMetadata) (n : string) (j : nat) : Prop :=
  (∃ c, cols !! j = Some c ∧ Name c = n) ∧
  ∀ k c, (j < k)%nat → cols !! k = Some c → Name c ≠ n.

(** No column of the metadata bears the name [n]. *)
Definition unnamed `{Codec} (cols : list ColumnMetadata) (n : string) : Prop :=
  ∀ c, c ∈ cols → Name c ≠ n.

(** The bundle's base configuration is a live object of the store. *)
Definition base_config `{X509} (b : Bundle.t) (σ : store) (base : Config) : Prop :=
  ∃ l, Bundle.tlsConfig b = Some l ∧ σ !! l = Some base.

(** Every object of [σ] is an object of [σ'], unchanged. *)
Definition preserved `{X509} (σ σ' : store) : Prop :=
  ∀ l c, σ !! l = Some c → σ' !! l = Some c.

(** The verification context the spec describes for the trust builder. *)
Definition trust_context `{X509} (pool : CertPool) (hostname : string) (now : Time)
    (intermediates : list Certificate) : VerifyOptions CertPool Time :=
  {| Roots := pool;
     CurrentTime := now;
     DNSName := hostname;
     Intermediates := fold_left AddCert intermediates NewCertPool |}.

(** The per-node configuration the spec describes: the base
    configuration with the server name set, the built-in verification
    disabled and the verification callback installed; [l] is the address
    of the configuration itself, which the callback refers to. *)
Definition per_node_config `{X509} (base : Config) (b : Bundle.t) (serverName : string)
    (l : loc) : Config :=
  {| ServerName := serverName;
     InsecureSkipVerify := true;
     RootCAs := RootCAs base;
     Certificates := Certificates base;
     VerifyPeerCertificate :=
       Some {| captured_tlsConfig := Some l; captured_bundle := b |} |}.

(** The chain verification the spec describes, as a function of the
    bundle's pool, the bundle's hostname, the instant and the presented
    chain: parse the chain, then verify the leaf in the trust context with
    the rest as intermediates.  An empty chain has no leaf. *)
Definition spec_verify_chain `{X509} (pool : CertPool) (hostname : string) (now : Time)
    (rawCerts : list (list byte)) : outcome (option error) :=
  match parse_certs rawCerts with
  | inr e => Returns (Some e)
  | inl [] => Panics (SliceBoundsOutOfRange 1 0)
  | inl (leaf :: rest) => Returns (Verify leaf (trust_context pool hostname now rest)).2
  end.

(** The metadata obtained at bootstrap: what the fetch of the metadata
    URL and the JSON decoding of its body yield, if both succeed. *)
Definition bootstrap_metadata `{X509} `{!Http} (b : Bundle.t) (σ : store)
  : option astraMetadata :=
  match http_Get (Bundle.tlsConfig b ≫= (fun l => σ !! l)) (metadata_url b) with
  | inl response =>
      match Body response with
      | (body, None) =>
          match json_Unmarshal body with
          | (Some metadata, None) => Some metadata
          | _ => None
          end
      | _ => None
      end
  | inr _ => None
  end.

(** The bundle's pointer to its base configuration is nil or live. *)
Definition valid_bundle `{X509} (b : Bundle.t) (σ : store) : Prop :=
  match Bundle.tlsConfig b with
  | Some l => is_Some (σ !! l)
  | None => True
  end.

(** ** Test doubles for the library interfaces

    Small executable instances, used to run the code on concrete rows,
    certificate chains and metadata responses. *)

Inductive sampleDataType : Type := Inet | Uuid | Varchar.

Definition sampleDecode (t : sampleDataType) (v : unit) (raw : Column)
  : Value * option error :=
  match t with
  | Inet =>
      if (length raw =? 4)%nat || (length raw =? 16)%nat then (VIP raw, None)
      else (VNil, Some (errorString "cannot decode inet"))
  | Uuid =>
      match raw with
      | [b0; b1; b2; b3; b4; b5; b6; b7; b8; b9; b10; b11; b12; b13; b14; b15] =>
          (VUUID [# b0; b1; b2; b3; b4; b5; b6; b7; b8; b9; b10; b11; b12; b13; b14; b15],
           None)
      | _ => (VNil, Some (errorString "cannot decode uuid"))
      end
  | Varchar => (VOther (String.string_of_list_byte raw), None)
  end.

Definition sampleCodec : Codec :=
  {| DataType := sampleDataType; ProtocolVersion := unit; DecodeType := sampleDecode |}.

(** A toy certificate: who it names, who signed it, until when it is
    valid and the DNS name it is issued for. *)
Record toyCertificate : Type := {
  subject : byte;
  issuer : byte;
  notAfter : N;
  dnsName : string
}.

Definition toyParse (raw : list byte) : toyCertificate + error :=
  match raw with
  | s :: i :: t :: name =>
      inl {| subject := s; issuer := i; notAfter := Byte.to_N t;
             dnsName := String.string_of_list_byte name |}
  | _ => inr (errorString "x509: malformed certificate")
  end.

Definition toySignedBy (pool : list toyCertificate) (c : toyCertificate) : bool :=
  existsb (fun ca => bool_decide (subject ca = issuer c)) pool.

Definition toyVerify (leaf : toyCertificate) (opts : VerifyOptions (list toyCertificate) N)
  : list (list toyCertificate) * option error :=
  if negb (CurrentTime opts <=? notAfter leaf)%N
  then ([], Some (errorString "x509: certificate has expired or is not yet valid"))
  else if negb (bool_decide (dnsName leaf = DNSName opts))
  then ([], Some (errorString "x509: certificate is not valid for the requested name"))
  else if toySignedBy (Roots opts) leaf
          || existsb (fun i => bool_decide (subject i = issuer leaf)
                               && toySignedBy (Roots opts) i) (Intermediates opts)
  then ([[leaf]], None)
  else ([], Some (errorString "x509: certificate signed by unknown authority")).

Definition toyX509 : X509 :=
  {| Certificate := toyCertificate;
     CertPool := list toyCertificate;
     TLSCertificate := unit;
     Time := N;
     ParseCertificate := toyParse;
     NewCertPool := [];
     AddCert := fun pool c => (pool ++ [c])%list;
     Verify := toyVerify |}.

Definition sampleAtoi (s : string) : Z * option error :=
  match DecimalString.NilZero.int_of_string s with
  | Some i => (Z.of_int i, None)
  | None => (0, Some (errorString ("strconv.Atoi: parsing " +:+ s +:+ ": invalid syntax")))
  end.

(** Literal addresses resolve to themselves; nothing else resolves. *)
Definition sampleLookupHost (h : string) : list string * option error :=
  if String.eqb h "10.0.0.1" || String.eqb h "10.0.0.2" then ([h], None)
  else ([], Some (errorString ("lookup " +:+ h +:+ ": no such host"))).

Definition sampleNet : Net :=
  {| LookupHost := sampleLookupHost; Atoi := sampleAtoi |}.

Definition sampleMetadata : astraMetadata :=
  {| Version := 1;
     Region := "us-east1";
     ContactInfo :=
       {| TypeName := "sni_proxy";
          LocalDc := "dc-1";
          SniProxyAddress := "proxy.example:29042";
          ContactPoints := ["node-a"; "node-b"] |} |}.

Definition zeroMetadata : astraMetadata :=
  {| Version := 0;
     Region := "";
     ContactInfo :=
       {| TypeName := ""; LocalDc := ""; SniProxyAddress := ""; ContactPoints := [] |} |}.

(** A metadata service that is down at one host, answers 500 with the
    body [{}] at another, answers 200 with text that is not JSON at a
    third, and serves [sampleMetadata] (body ["metadata"]) elsewhere. *)
Definition sampleGet (cfg : option (@Config toyX509)) (url : string) : Response + error :=
  if String.eqb url "https://down.example:29080/metadata"
  then inr (errorString "dial tcp: connection refused")
  else if String.eqb url "https://broken.example:29080/metadata"
  then inl {| StatusCode := 500; Body := ("{}", None) |}
  else if String.eqb url "https://html.example:29080/metadata"
  then inl {| StatusCode := 200; Body := ("<html>", None) |}
  else inl {| StatusCode := 200; Body := ("metadata", None) |}.

Definition sampleUnmarshal (body : string) : option astraMetadata * option error :=
  if String.eqb body "{}" then (Some zeroMetadata, None)
  else if String.eqb body "metadata" then (Some sampleMetadata, None)
  else (None, Some (errorString "invalid character '<' looking for beginning of value")).

Definition sampleHttp : @Http toyX509 :=
  {| http_Get := sampleGet; json_Unmarshal := sampleUnmarshal |}.

Definition sampleRoots : list toyCertificate :=
  [ {| subject := x01; issuer := x01; notAfter := 200; dnsName := "ca" |} ].

Definition sampleBase : @Config toyX509 :=
  @Build_Config toyX509 "" false sampleRoots [] None.

Definition sampleBundle (h : string) : Bundle.t :=
  {| Bundle.tlsConfig := Some 0%nat; Bundle.host := h; Bundle.port := 29080 |}.

Definition sampleResolver : astraResolver.t :=
  {| astraResolver.contactPoints := [];
     astraResolver.host := "proxy.example:29042";
     astraResolver.bundle := sampleBundle "metadata.example" |}.

Definition sampleColumn (n : string) (t : sampleDataType) : @ColumnMetadata sampleCodec :=
  @Build_ColumnMetadata sampleCodec n t.

Definition sampleColumns : list (@ColumnMetadata sampleCodec) :=
  [ sampleColumn "peer" Inet; sampleColumn "rpc_address" Inet; sampleColumn "host_id" Uuid ].

Definition sampleRows (cols : list (@ColumnMetadata sampleCodec)) (data : list Column)
  : @RowsResult sampleCodec :=
  @Build_RowsResult sampleCodec cols [data].

Definition sampleRow (cols : list (@ColumnMetadata sampleCodec)) (data : list Column)
  : @Row sampleCodec :=
  @Build_Row sampleCodec (@NewResultSet sampleCodec (sampleRows cols data) tt) data.

Definition uuid_a : list byte :=
  [x12; x34; x56; x78; x9a; xbc; xde; xf0; x01; x02; x03; x04; x05; x06; x07; x08].
Definition uuid_b : list byte :=
  [x12; x34; x56; x78; x9a; xbc; xde; xf0; x01; x02; x03; x04; x05; x06; x07; x09].

Definition direct9042 : defaultEndpointFactory.t :=
  {| defaultEndpointFactory.contactPoints := [];
     defaultEndpointFactory.defaultPort := 9042 |}.

(** A peer row: peer 10.0.0.5, [rpc_address] as given, host id [uuid_a]. *)
Definition peerRow (rpc : list byte) : list Column :=
  [[x0a; x00; x00; x05]; rpc; uuid_a].

(** Two columns that bear the same name. *)
Definition twiceNamed : list (@ColumnMetadata sampleCodec) :=
  [ sampleColumn "address" Varchar; sampleColumn "address" Inet ].

(** What the bootstrap against the sample metadata service produces. *)
Definition sampleFactory : EndpointFactory :=
  AstraResolver
    {| astraResolver.contactPoints :=
         [ AstraEndpoint {| astraEndpoint.addr := "proxy.example:29042";
                            astraEndpoint.tlsConfig := Some 2%nat |};
           AstraEndpoint {| astraEndpoint.addr := "proxy.example:29042";
                            astraEndpoint.tlsConfig := Some 3%nat |} ];
       astraResolver.host := "proxy.example:29042";
       astraResolver.bundle := sampleBundle "metadata.example" |}.

Definition sampleStore : list (@Config toyX509) :=
  [ sampleBase; sampleBase;
    @per_node_config toyX509 sampleBase (sampleBundle "metadata.example") "node-a" 2;
    @per_node_config toyX509 sampleBase (sampleBundle "metadata.example") "node-b" 3 ].

Definition directFactory : EndpointFactory :=
  DefaultEndpointFactory
    {| defaultEndpointFactory.contactPoints :=
         [ DefaultEndpoint {| defaultEndpoint.addr := "10.0.0.1:9042" |};
           DefaultEndpoint {| defaultEndpoint.addr := "10.0.0.2:9043" |} ];
       defaultEndpointFactory.defaultPort := 9042 |}.

Definition uuid_a_vec : UUID :=
  [# x12; x34; x56; x78; x9a; xbc; xde; xf0; x01; x02; x03; x04; x05; x06; x07; x08].
Definition uuid_b_vec : UUID :=
  [# x12; x34; x56; x78; x9a; xbc; xde; xf0; x01; x02; x03; x04; x05; x06; x07; x09].

(** A toy leaf valid until instant 100: subject 2, the given issuer and
    DNS name. *)
Definition leafFor (issuer : byte) (name : string) : list byte :=
  x02 :: issuer :: x64 :: String.list_byte_of_string name.

(** Build the configuration for [sni] from the sample bundle (hostname
    [metadata.example], pool [sampleRoots]) and call the callback it
    carries on [chain] at instant [now]. *)
Definition run_callback (sni : string) (chain : list (list byte)) (now : N)
  : outcome (option error) :=
  match @copyTLSConfig toyX509 (sampleBundle "metadata.example") sni [sampleBase] with
  | Returns (Some l, σ') =>
      match @VerifyPeerCertificate toyX509 <$> σ' !! l with
      | Some (Some f) =>
          match @call_VerifyPeerCertificate toyX509 f chain [] now σ' with
          | Returns (err, _) => Returns err
          | Panics p => Panics p
          end
      | _ => Panics NilPointerDereference
      end
  | Returns (None, _) => Panics NilPointerDereference
  | Panics p => Panics p
  end.

(** The text holds no colon. *)
Fixpoint no_colon (s : string) : bool :=
  match s with
  | EmptyString => true
  | String c s' => negb (Ascii.eqb c ":") && no_colon s'
  end.

(** The endpoints the direct strategy makes of resolved addresses. *)
Definition direct_endpoints (addrs : list string) (port : Z) : list Endpoint :=
  map (fun addr => DefaultEndpoint
         {| defaultEndpoint.addr := addr +:+ ":" +:+ itoa port |}) addrs.

(** A metadata service that answers 200 with the JSON text [null], which
    decodes without error and leaves the metadata pointer nil. *)
Definition nullHttp : @Http toyX509 :=
  @Build_Http toyX509
    (fun _ _ => inl {| StatusCode := 200; Body := ("null", None) |})
    (fun body => if String.eqb body "null" then (None, None)
                 else (None, Some (errorString "unexpected end of JSON input"))).

(** Two configurations whose server names are [c] and [b:c]. *)
Definition colonStore : list (@Config toyX509) :=
  [ @per_node_config toyX509 sampleBase (sampleBundle "metadata.example") "c" 0;
    @per_node_config toyX509 sampleBase (sampleBundle "metadata.example") "b:c" 1 ].

(** * Properties *)

(** ** The row decoder *)

Section RowDecoder.
Context `{Codec}.

Lemma index_columns_unnamed (cols : list ColumnMetadata) (i : Z) (m : gmap string Z)
    (n : string) :
  unnamed cols n → index_columns cols i m !! n = m !! n.
Proof.
  revert i m. induction cols as [|c cols IH]; intros i m Hn; simpl; [done|].
  rewrite IH.
  - apply lookup_insert_ne. apply Hn. left.
  - intros c' Hc'. apply Hn. by right.
Qed.

Lemma last_named_tail (c : ColumnMetadata) (cols : list ColumnMetadata) (n : string)
    (j : nat) :
  last_named (c :: cols) n (S j) → last_named cols n j.
Proof.
  intros [Hj Hlast]. split; [exact Hj|].
  intros k c' Hk Hc'. apply (Hlast (S k) c'); [lia | exact Hc'].
Qed.

Lemma last_named_head (c : ColumnMetadata) (cols : list ColumnMetadata) (n : string) :
  last_named (c :: cols) n 0 → Name c = n ∧ unnamed cols n.
Proof.
  intros [(c0 & Hc0 & Hname) Hlast]. simpl in Hc0. simplify_eq. split; [done|].
  intros c' Hc'. apply list_elem_of_lookup in Hc' as [k Hk].
  apply (Hlast (S k) c'); [lia | exact Hk].
Qed.

Lemma index_columns_last (cols : list ColumnMetadata) (i : Z) (m : gmap string Z)
    (n : string) (j : nat) :
  last_named cols n j → index_columns cols i m !! n = Some (i + Z.of_nat j).
Proof.
  revert i m j. induction cols as [|c cols IH]; intros i m j Hj.
  - destruct Hj as [(c & Hc & _) _]. by rewrite lookup_nil in Hc.
  - destruct j as [|j]; simpl.
    + apply last_named_head in Hj as [Hname Hrest].
      rewrite index_columns_unnamed by exact Hrest.
      rewrite Hname, lookup_insert_eq. f_equal. lia.
    + rewrite (IH _ _ j) by (eapply last_named_tail; exact Hj). f_equal. lia.
Qed.

Lemma NewResultSet_index_last (rows : RowsResult) (v : ProtocolVersion) (n : string)
    (j : nat) :
  last_named (Columns rows) n j →
  columnIndexes (NewResultSet rows v) !! n = Some (Z.of_nat j).
Proof. intros Hj. simpl. by rewrite (index_columns_last _ _ _ _ j). Qed.

Lemma NewResultSet_index_unnamed (rows : RowsResult) (v : ProtocolVersion) (n : string) :
  unnamed (Columns rows) n → columnIndexes (NewResultSet rows v) !! n = None.
Proof. intros Hn. simpl. by rewrite index_columns_unnamed. Qed.

Lemma index_lookup {A} (l : list A) (j : nat) (x : A) :
  l !! j = Some x → index l (Z.of_nat j) = Returns x.
Proof.
  intros Hx. unfold index.
  destruct (Z.ltb_spec (Z.of_nat j) 0) as [Hneg|_]; [lia|].
  by rewrite Nat2Z.id, Hx.
Qed.

Lemma ByName_unnamed (rows : RowsResult) (v : ProtocolVersion) (data : list Column)
    (n : string) :
  unnamed (Columns rows) n →
  ByName {| resultSet := NewResultSet rows v; row := data |} n
  = Returns (VNil, Some ColumnNameNotFound).
Proof.
  intros Hn. unfold ByName. cbn [resultSet].
  by rewrite NewResultSet_index_unnamed.
Qed.

Lemma ByName_last (rows : RowsResult) (v : ProtocolVersion) (data : list Column)
    (n : string) (j : nat) :
  last_named (Columns rows) n j →
  ByName {| resultSet := NewResultSet rows v; row := data |} n
  = ByPos {| resultSet := NewResultSet rows v; row := data |} (Z.of_nat j).
Proof.
  intros Hj. unfold ByName. cbn [resultSet].
  by rewrite (NewResultSet_index_last _ _ _ j).
Qed.

(** What [ByPos] returns on a column that exists in the metadata and in
    the row: the decoded value, or nil with the decoder's error. *)
Lemma ByPos_decodes (rows : RowsResult) (v : ProtocolVersion) (data : list Column)
    (j : nat) (c : ColumnMetadata) (raw : Column) :
  Columns rows !! j = Some c → data !! j = Some raw →
  ByPos {| resultSet := NewResultSet rows v; row := data |} (Z.of_nat j)
  = Returns (match DecodeType (Type_ c) v raw with
             | (_, Some e) => (VNil, Some e)
             | (val, None) => (val, None)
             end).
Proof.
  intros Hc Hraw. unfold ByPos. cbn [resultSet row result version NewResultSet].
  rewrite (index_lookup _ _ _ Hc). cbn [mbind outcome_bind].
  rewrite (index_lookup _ _ _ Hraw). cbn [mbind outcome_bind].
  by destruct (DecodeType (Type_ c) v raw) as [val [e|]].
Qed.

(** When column names are unique, every column is the last of its name. *)
Lemma NoDup_last_named (cols : list ColumnMetadata) (j : nat) (c : ColumnMetadata) :
  NoDup (Name <$> cols) → cols !! j = Some c → last_named cols (Name c) j.
Proof.
  intros Hnd Hc. split; [by exists c|].
  intros k c' Hk Hc' Heq.
  assert (j = k); [|lia].
  eapply NoDup_lookup; [exact Hnd| |].
  - by rewrite list_lookup_fmap, Hc.
  - by rewrite list_lookup_fmap, Hc'; simpl; rewrite Heq.
Qed.

(** Claim C8.  For every decoded result and protocol version, and every
    column name of the result metadata, [ByName] returns on any row of the
    result exactly the (value, error) pair, or the panic, that [ByPos]
    returns at the index of that column: the position of the column that
    bears the name, which is the only one when names are unique within the
    result and the last one otherwise. *)
Theorem ByName_eq_ByPos (rows : RowsResult) (v : ProtocolVersion) (data : list Column)
    (j : nat) (c : ColumnMetadata) :
  Columns rows !! j = Some c →
  (∀ k c', (j < k)%nat → Columns rows !! k = Some c' → Name c' ≠ Name c) →
  ByName {| resultSet := NewResultSet rows v; row := data |} (Name c)
  = ByPos {| resultSet := NewResultSet rows v; row := data |} (Z.of_nat j).
Proof.
  intros Hc Hlast. apply ByName_last. split; [by exists c | exact Hlast].
Qed.

(** The same with the uniqueness of names as the hypothesis. *)
Lemma ByName_unique_names (rows : RowsResult) (v : ProtocolVersion)
    (data : list Column) (j : nat) (c : ColumnMetadata) :
  NoDup (Name <$> Columns rows) → Columns rows !! j = Some c →
  ByName {| resultSet := NewResultSet rows v; row := data |} (Name c)
  = ByPos {| resultSet := NewResultSet rows v; row := data |} (Z.of_nat j).
Proof. intros Hnd Hc. apply ByName_last. by apply NoDup_last_named. Qed.

(** Claim C9.  When two or more columns of the metadata bear the same
    name, [NewResultSet] (which has no error result) maps the name to the
    position of its last occurrence, and [ByName] on that name decodes the
    last such column. *)
Theorem NewResultSet_duplicate_last_wins (rows : RowsResult) (v : ProtocolVersion)
    (data : list Column) (n : string) (i j : nat) (ci cj : ColumnMetadata) :
  (i < j)%nat →
  Columns rows !! i = Some ci → Name ci = n →
  Columns rows !! j = Some cj → Name cj = n →
  (∀ k c, (j < k)%nat → Columns rows !! k = Some c → Name c ≠ n) →
  columnIndexes (NewResultSet rows v) !! n = Some (Z.of_nat j)
  ∧ ByName {| resultSet := NewResultSet rows v; row := data |} n
    = ByPos {| resultSet := NewResultSet rows v; row := data |} (Z.of_nat j)
  ∧ ∀ raw, data !! j = Some raw →
      ByName {| resultSet := NewResultSet rows v; row := data |} n
      = Returns (match DecodeType (Type_ cj) v raw with
                 | (_, Some e) => (VNil, Some e)
                 | (val, None) => (val, None)
                 end).
Proof.
  intros Hij Hi Hni Hj Hnj Hlast.
  assert (last_named (Columns rows) n j) as Hl by (split; [by exists cj | exact Hlast]).
  split; [by apply NewResultSet_index_last|].
  split; [by apply ByName_last|].
  intros raw Hraw. rewrite (ByName_last _ _ _ _ j Hl).
  by apply ByPos_decodes.
Qed.

End RowDecoder.

(** ** net.IP *)

Lemma unspecified_spec (ip : IP) :
  IP_Equal ip IPv4zero || IP_Equal ip IPv6zero = true ↔ unspecified ip.
Proof.
  split.
  - unfold IP_Equal, bytes_Equal, IPv4len, IPv6len.
    change (length IPv4zero) with 16%nat. change (length IPv6zero) with 16%nat.
    destruct (Nat.eqb_spec (length ip) 16) as [H16|H16].
    + intros [Hz|Hz]%orb_true_iff; apply bool_decide_eq_true in Hz.
      * right; by left.
      * right; by right.
    + destruct (Nat.eqb_spec (length ip) 4) as [H4|H4]; simpl.
      * rewrite orb_false_r. intros Hz%bool_decide_eq_true. by left.
      * intros Hz. discriminate Hz.
  - intros [->|[->| ->]]; reflexivity.
Qed.

Lemma unspecified_dec (ip : IP) :
  ¬ unspecified ip → IP_Equal ip IPv4zero || IP_Equal ip IPv6zero = false.
Proof.
  intros Hn. destruct (IP_Equal ip IPv4zero || IP_Equal ip IPv6zero) eqn:E; [|done].
  by apply unspecified_spec in E.
Qed.

(** ** The direct strategy *)

Section Direct.
Context `{Codec}.

Lemma index_columns_range (cols : list ColumnMetadata) (i : Z) (m : gmap string Z)
    (n : string) (k : Z) :
  index_columns cols i m !! n = Some k →
  m !! n = Some k ∨ (i ≤ k < i + Z.of_nat (length cols)).
Proof.
  revert i m. induction cols as [|c cols IH]; intros i m Hk; simpl in *; [by left|].
  apply IH in Hk as [Hk|Hk]; [|right; lia].
  destruct (decide (Name c = n)) as [Heq|Hne].
  - rewrite Heq, lookup_insert_eq in Hk. simplify_eq. right. lia.
  - rewrite lookup_insert_ne in Hk by done. by left.
Qed.

Lemma index_in_range {A} (l : list A) (k : Z) :
  0 ≤ k < Z.of_nat (length l) → ∃ x, index l k = Returns x.
Proof.
  intros Hk. unfold index.
  destruct (Z.ltb_spec k 0) as [Hneg|_]; [lia|].
  destruct (l !! Z.to_nat k) as [x|] eqn:E; [by exists x|].
  apply lookup_ge_None in E. lia.
Qed.

(** On a row with one entry per column, [ByName] returns: it does not
    panic, whatever the name. *)
Lemma ByName_returns (rows : RowsResult) (v : ProtocolVersion) (data : list Column)
    (n : string) :
  length data = length (Columns rows) →
  ∃ val err, ByName {| resultSet := NewResultSet rows v; row := data |} n
             = Returns (val, err).
Proof.
  intros Hlen. unfold ByName. cbn [resultSet columnIndexes NewResultSet].
  destruct (index_columns (Columns rows) 0 ∅ !! n) as [k|] eqn:E; [|by eauto].
  apply index_columns_range in E as [E|Hk]; [by rewrite lookup_empty in E|].
  unfold ByPos. cbn [resultSet row result version NewResultSet].
  destruct (index_in_range (Columns rows) k) as [c ->]; [lia|].
  destruct (index_in_range data k) as [raw ->]; [lia|].
  cbn [mbind outcome_bind].
  destruct (DecodeType (Type_ c) v raw) as [val [e|]]; by eauto.
Qed.

(** [Create] once both columns have been read without a fatal error. *)
Lemma Create_after_lookups (d : defaultEndpointFactory.t) (row : Row) (peer : Value)
    (perr : option error) (rpc : IP) :
  ByName row "peer" = Returns (peer, perr) →
  defaultEndpointFactory.is_fatal perr = false →
  ByName row "rpc_address" = Returns (VIP rpc, None) →
  defaultEndpointFactory.Create d row
  = (addr ← (if IP_Equal rpc IPv4zero || IP_Equal rpc IPv6zero
             then assert_IP peer else mret rpc);
     mret (Some (DefaultEndpoint
                   {| defaultEndpoint.addr :=
                        IP_String addr +:+ ":"
                          +:+ itoa (defaultEndpointFactory.defaultPort d) |}),
           None)).
Proof.
  intros Hpeer Hfatal Hrpc. unfold defaultEndpointFactory.Create.
  rewrite Hpeer. cbn [mbind outcome_bind]. rewrite Hfatal, Hrpc. reflexivity.
Qed.

(** Claim C3.  Once [peer] has been read (decoded, or found absent) and
    [rpc_address] has decoded to an address: if that address is the
    unspecified all-zero IPv4 or IPv6 address, the endpoint's address is
    the decoded peer with the default port; if it is any other address,
    the endpoint's address is [rpc_address] with the default port,
    whatever was read for [peer].  With port 9042, [rpc_address] 0.0.0.0
    and peer 10.0.0.5 give "10.0.0.5:9042", and [rpc_address] 10.0.0.9
    gives "10.0.0.9:9042". *)
Theorem Create_rpc_address_or_peer (d : defaultEndpointFactory.t) (row : Row)
    (peer : Value) (perr : option error) (rpc : IP) :
  ByName row "peer" = Returns (peer, perr) →
  defaultEndpointFactory.is_fatal perr = false →
  ByName row "rpc_address" = Returns (VIP rpc, None) →
  (unspecified rpc → ∀ p, peer = VIP p →
     defaultEndpointFactory.Create d row
     = Returns (Some (DefaultEndpoint
                        {| defaultEndpoint.addr :=
                             IP_String p +:+ ":"
                               +:+ itoa (defaultEndpointFactory.defaultPort d) |}),
                None))
  ∧ (¬ unspecified rpc →
     defaultEndpointFactory.Create d row
     = Returns (Some (DefaultEndpoint
                        {| defaultEndpoint.addr :=
                             IP_String rpc +:+ ":"
                               +:+ itoa (defaultEndpointFactory.defaultPort d) |}),
                None))
  ∧ (defaultEndpointFactory.defaultPort d = 9042 →
     (rpc = [x00; x00; x00; x00] → peer = VIP [x0a; x00; x00; x05] →
      defaultEndpointFactory.Create d row
      = Returns (Some (DefaultEndpoint {| defaultEndpoint.addr := "10.0.0.5:9042" |}),
                 None))
     ∧ (rpc = [x0a; x00; x00; x09] →
        defaultEndpointFactory.Create d row
        = Returns (Some (DefaultEndpoint {| defaultEndpoint.addr := "10.0.0.9:9042" |}),
                   None))).
Proof.
  intros Hpeer Hfatal Hrpc.
  rewrite (Create_after_lookups d row peer perr rpc Hpeer Hfatal Hrpc).
  split; [|split].
  - intros Hz p ->. apply unspecified_spec in Hz. by rewrite Hz.
  - intros Hz. by rewrite (unspecified_dec _ Hz).
  - intros ->. split.
    + intros -> ->. reflexivity.
    + intros ->. reflexivity.
Qed.

(** Claim C7.  On a row with one entry per column: if no column is named
    [rpc_address], [Create] returns an error; if no column is named [peer],
    [Create] returns an endpoint and no error whenever [rpc_address]
    decodes to an address that is not the unspecified one, and only then:
    with an unspecified [rpc_address] the missing peer is not tolerated
    (the conversion of the nil peer to an address panics). *)
Theorem Create_missing_columns (d : defaultEndpointFactory.t) (rows : RowsResult)
    (v : ProtocolVersion) (data : list Column) :
  length data = length (Columns rows) →
  (unnamed (Columns rows) "rpc_address" →
     ∃ e, defaultEndpointFactory.Create d
            {| resultSet := NewResultSet rows v; row := data |}
          = Returns (None, Some e))
  ∧ (unnamed (Columns rows) "peer" →
     (∀ rpc, ByName {| resultSet := NewResultSet rows v; row := data |} "rpc_address"
             = Returns (VIP rpc, None) →
             ¬ unspecified rpc →
             defaultEndpointFactory.Create d
               {| resultSet := NewResultSet rows v; row := data |}
             = Returns (Some (DefaultEndpoint
                                {| defaultEndpoint.addr :=
                                     IP_String rpc +:+ ":"
                                       +:+ itoa (defaultEndpointFactory.defaultPort d) |}),
                        None))
     ∧ (∀ rpc, ByName {| resultSet := NewResultSet rows v; row := data |} "rpc_address"
               = Returns (VIP rpc, None) →
               unspecified rpc →
               defaultEndpointFactory.Create d
                 {| resultSet := NewResultSet rows v; row := data |}
               = Panics (InterfaceConversion "net.IP"))
     ∧ (∀ e err, defaultEndpointFactory.Create d
                   {| resultSet := NewResultSet rows v; row := data |}
                 = Returns (Some e, err) →
                 ∃ rpc, ByName {| resultSet := NewResultSet rows v; row := data |}
                          "rpc_address" = Returns (VIP rpc, None)
                        ∧ ¬ unspecified rpc)).
Proof.
  intros Hlen. split.
  - intros Hrpc.
    destruct (ByName_returns rows v data "peer" Hlen) as (peer & perr & Hpeer).
    unfold defaultEndpointFactory.Create. rewrite Hpeer. cbn [mbind outcome_bind].
    destruct (defaultEndpointFactory.is_fatal perr) eqn:Hfatal.
    + destruct perr as [e|]; [by exists e | discriminate Hfatal].
    + rewrite (ByName_unnamed rows v data _ Hrpc). by eexists.
  - intros Hpeer. pose proof (ByName_unnamed rows v data _ Hpeer) as Hp.
    split; [|split].
    + intros rpc Hrpc Hz.
      rewrite (Create_after_lookups d _ _ _ rpc Hp eq_refl Hrpc).
      by rewrite (unspecified_dec _ Hz).
    + intros rpc Hrpc Hz.
      rewrite (Create_after_lookups d _ _ _ rpc Hp eq_refl Hrpc).
      apply unspecified_spec in Hz. by rewrite Hz.
    + intros e err. unfold defaultEndpointFactory.Create.
      rewrite Hp. cbn [mbind outcome_bind defaultEndpointFactory.is_fatal
                         errors_Is_ColumnNameNotFound negb].
      destruct (ByName _ "rpc_address") as [[rpcv [e'|]]|p]; cbn [mbind outcome_bind];
        [discriminate| |discriminate].
      destruct rpcv as [|rpc|u|s]; cbn [assert_IP mbind outcome_bind]; try discriminate.
      destruct (IP_Equal rpc IPv4zero || IP_Equal rpc IPv6zero) eqn:Hz;
        cbn [assert_IP mbind outcome_bind]; [discriminate|].
      intros _. exists rpc. split; [done|].
      intros Hu. apply unspecified_spec in Hu. congruence.
Qed.

End Direct.

(** ** The store of TLS configurations *)

Section Store.
Context `{X509}.

Lemma preserved_refl (σ : store) : preserved σ σ.
Proof. by intros l c. Qed.

Lemma preserved_trans (σ1 σ2 σ3 : store) :
  preserved σ1 σ2 → preserved σ2 σ3 → preserved σ1 σ3.
Proof. intros H12 H23 l c Hl. by apply H23, H12. Qed.

Lemma preserved_app (σ τ : store) : preserved σ (σ ++ τ)%list.
Proof. intros l c Hl. by apply lookup_app_l_Some. Qed.

Lemma base_config_preserved (b : Bundle.t) (σ σ' : store) (base : Config) :
  preserved σ σ' → base_config b σ base → base_config b σ' base.
Proof. intros Hp (l & Hl & Hbase). exists l. split; [done|]. by apply Hp. Qed.

Lemma modify_last (σ : store) (c : Config) (f : Config → Config) :
  modify (Some (length σ)) f (σ ++ [c])%list = Returns (tt, (σ ++ [f c])%list).
Proof.
  unfold modify. rewrite list_lookup_middle by done.
  rewrite insert_app_r_alt by lia. by rewrite Nat.sub_diag.
Qed.

Lemma Bundle_TLSConfig_clone (b : Bundle.t) (σ : store) (base : Config) :
  base_config b σ base →
  Bundle_TLSConfig b σ = Returns (Some (length σ), (σ ++ [base])%list).
Proof.
  intros (l & Hl & Hbase). unfold Bundle_TLSConfig. rewrite Hl.
  unfold mbind, Go_bind, load. by rewrite Hbase.
Qed.

(** What [copyTLSConfig] does when the bundle has a base configuration:
    one new object, the per-node configuration, and nothing else. *)
Lemma copyTLSConfig_spec (b : Bundle.t) (serverName : string) (σ : store)
    (base : Config) :
  base_config b σ base →
  copyTLSConfig b serverName σ
  = Returns (Some (length σ),
             (σ ++ [per_node_config base b serverName (length σ)])%list).
Proof.
  intros Hbase. unfold copyTLSConfig, mbind, Go_bind.
  rewrite (Bundle_TLSConfig_clone b σ base Hbase).
  by rewrite !modify_last.
Qed.

(** [copyTLSConfig] returns only when the bundle has a base configuration. *)
Lemma copyTLSConfig_returns (b : Bundle.t) (serverName : string) (σ σ' : store)
    (p : ptr) :
  copyTLSConfig b serverName σ = Returns (p, σ') →
  ∃ base, base_config b σ base.
Proof.
  unfold copyTLSConfig, mbind, Go_bind, Bundle_TLSConfig.
  destruct (Bundle.tlsConfig b) as [l|] eqn:Hl.
  - unfold mbind, Go_bind, load. destruct (σ !! l) as [base|] eqn:Hbase; [|done].
    intros _. exists base, l. by split.
  - unfold mret, Go_ret, modify. done.
Qed.

Lemma copyTLSConfig_preserved (b : Bundle.t) (serverName : string) (σ σ' : store)
    (p : ptr) :
  copyTLSConfig b serverName σ = Returns (p, σ') → preserved σ σ'.
Proof.
  intros Hc. destruct (copyTLSConfig_returns _ _ _ _ _ Hc) as [base Hbase].
  rewrite (copyTLSConfig_spec _ _ _ _ Hbase) in Hc. simplify_eq.
  apply preserved_app.
Qed.

Lemma astra_contact_points_preserved (b : Bundle.t) (addr : string) (cps : list string)
    (acc eps : list Endpoint) (σ σ' : store) :
  astra_contact_points b addr cps acc σ = Returns (eps, σ') → preserved σ σ'.
Proof.
  revert acc σ. induction cps as [|cp cps IH]; intros acc σ; simpl.
  - unfold mret, Go_ret. intros ?; simplify_eq. apply preserved_refl.
  - unfold mbind, Go_bind.
    destruct (copyTLSConfig b cp σ) as [[p σ1]|] eqn:Hc; [|done].
    intros Hrest. eapply preserved_trans.
    + eapply copyTLSConfig_preserved, Hc.
    + eapply IH, Hrest.
Qed.

Lemma astra_contact_points_unresolved (b : Bundle.t) (addr : string) (cps : list string)
    (acc eps : list Endpoint) (σ σ' : store) :
  astra_contact_points b addr cps acc σ = Returns (eps, σ') →
  Forall (fun e => Endpoint_IsResolved e = false) acc →
  Forall (fun e => Endpoint_IsResolved e = false) eps.
Proof.
  revert acc σ. induction cps as [|cp cps IH]; intros acc σ; simpl.
  - unfold mret, Go_ret. intros ? Hacc; by simplify_eq.
  - unfold mbind, Go_bind.
    destruct (copyTLSConfig b cp σ) as [[p σ1]|] eqn:Hc; [|done].
    intros Hrest Hacc. eapply IH; [exact Hrest|].
    apply Forall_app. split; [exact Hacc|]. by apply Forall_singleton.
Qed.

End Store.

(** ** Hexadecimal text *)

Lemma unhex_hexdigits (b : byte) :
  unhex (hexdigit (N.shiftr (Byte.to_N b) 4)) (hexdigit (N.land (Byte.to_N b) 15)) = Some b.
Proof. destruct b; vm_compute; reflexivity. Qed.

Lemma hex_EncodeToString_inj (l1 l2 : list byte) :
  hex_EncodeToString l1 = hex_EncodeToString l2 → l1 = l2.
Proof.
  revert l2. induction l1 as [|a l1 IH]; intros [|b l2]; simpl; try discriminate; [done|].
  intros Heq. injection Heq as Hhi Hlo Hrest.
  pose proof (unhex_hexdigits a) as Ha. pose proof (unhex_hexdigits b) as Hb.
  rewrite Hhi, Hlo in Ha. f_equal; [congruence | by apply IH].
Qed.

Lemma hex_EncodeToString_length (l : list byte) :
  String.length (hex_EncodeToString l) = (2 * length l)%nat.
Proof. induction l as [|a l IH]; simpl; [done|]. rewrite IH. lia. Qed.

Lemma append_inj_length (s1 s2 t1 t2 : string) :
  String.length s1 = String.length s2 → s1 +:+ t1 = s2 +:+ t2 → s1 = s2 ∧ t1 = t2.
Proof.
  revert s2. induction s1 as [|c s1 IH]; intros [|d s2]; simpl; try discriminate; [done|].
  intros Hlen Heq. injection Hlen as Hlen. injection Heq as -> Heq.
  destruct (IH s2 Hlen Heq) as [-> ->]. done.
Qed.

Lemma dash_inj (s t : string) : "-" +:+ s = "-" +:+ t → s = t.
Proof. cbn [String.append]. intros Heq. by injection Heq. Qed.

Lemma UUID_String_inj (u v : UUID) : UUID_String u = UUID_String v → u = v.
Proof.
  unfold UUID_String. intros Heq. apply vec_to_list_inj2.
  pose proof (length_vec_to_list u) as Hu. pose proof (length_vec_to_list v) as Hv.
  set (b := vec_to_list u) in *. set (b' := vec_to_list v) in *.
  apply append_inj_length in Heq as [H0 Heq];
    [|rewrite !hex_EncodeToString_length, !length_take; lia].
  apply dash_inj in Heq.
  apply append_inj_length in Heq as [H4 Heq];
    [|rewrite !hex_EncodeToString_length, !length_take, !length_drop; lia].
  apply dash_inj in Heq.
  apply append_inj_length in Heq as [H6 Heq];
    [|rewrite !hex_EncodeToString_length, !length_take, !length_drop; lia].
  apply dash_inj in Heq.
  apply append_inj_length in Heq as [H8 H10];
    [|rewrite !hex_EncodeToString_length, !length_take, !length_drop; lia].
  apply dash_inj in H10.
  apply hex_EncodeToString_inj in H0, H4, H6, H8, H10.
  rewrite <- (take_drop 4 b), <- (take_drop 4 b'), H0. f_equal.
  rewrite <- (take_drop 2 (drop 4 b)), <- (take_drop 2 (drop 4 b')), H4. f_equal.
  rewrite !drop_drop. change (4 + 2)%nat with 6%nat.
  rewrite <- (take_drop 2 (drop 6 b)), <- (take_drop 2 (drop 6 b')), H6. f_equal.
  rewrite !drop_drop. change (6 + 2)%nat with 8%nat.
  rewrite <- (take_drop 2 (drop 8 b)), <- (take_drop 2 (drop 8 b')), H8. f_equal.
  rewrite !drop_drop. exact H10.
Qed.

(** ** The TLS trust builder *)

Section TrustBuilder.
Context `{X509}.

Lemma parse_certs_unparsable (rawCerts : list (list byte)) (raw : list byte) (e : error) :
  raw ∈ rawCerts → ParseCertificate raw = inr e → ∃ e', parse_certs rawCerts = inr e'.
Proof.
  intros Hin Hraw. induction rawCerts as [|r rawCerts IH]; [by apply elem_of_nil in Hin|].
  simpl. apply elem_of_cons in Hin as [<-|Hin].
  - rewrite Hraw. by eexists.
  - destruct (ParseCertificate r) as [cert|e0]; [|by eexists].
    destruct (IH Hin) as [e' ->]. by eexists.
Qed.

(** The installed callback computes the chain verification of the spec,
    with the pool of the configuration it is installed in. *)
Lemma call_VerifyPeerCertificate_spec (l : loc) (b : Bundle.t) (cfg : Config)
    (rawCerts : list (list byte)) (chains : list (list Certificate)) (now : Time)
    (τ : store) :
  τ !! l = Some cfg →
  call_VerifyPeerCertificate {| captured_tlsConfig := Some l; captured_bundle := b |}
    rawCerts chains now τ
  = lift (spec_verify_chain (RootCAs cfg) (Bundle.host b) now rawCerts) τ.
Proof.
  intros Hcfg. unfold call_VerifyPeerCertificate, spec_verify_chain.
  destruct (parse_certs rawCerts) as [certs|e]; [|done].
  cbn [captured_tlsConfig captured_bundle]. unfold mbind, Go_bind, load.
  rewrite Hcfg. destruct certs as [|leaf rest]; [done|].
  unfold slice_from. cbn [length orb Z.ltb Z.compare].
  destruct (Z.ltb_spec (Z.of_nat (S (length rest))) 1) as [Hlt|_]; [lia|].
  change (index (leaf :: rest) 0) with (Returns leaf).
  change (drop (Z.to_nat 1) (leaf :: rest)) with rest.
  unfold add_intermediates, trust_context, Bundle_Host.
  cbn [lift Roots CurrentTime DNSName Intermediates].
  by destruct (Verify leaf _) as [cs err].
Qed.

(** Claim C6.  Building a per-node configuration from a bundle with a
    base configuration returns a configuration at an address fresh for
    the store, holding the base with the server name, the verification
    flag and the callback set; every configuration that existed, the
    bundle's base among them, is unchanged; a later build, for any other
    server name, returns another address and changes neither the base nor
    the configuration built first.  The same frame holds for the builds
    made during [Create] and during [ResolveAstra]. *)
Theorem copyTLSConfig_leaves_bundle_unmodified `{!Http} `{Codec} (bundle : Bundle.t)
    (serverName : string) (σ : store) (base : Config) :
  base_config bundle σ base →
  ∃ l σ',
    copyTLSConfig bundle serverName σ = Returns (Some l, σ')
    ∧ σ !! l = None
    ∧ σ' !! l = Some (per_node_config base bundle serverName l)
    ∧ preserved σ σ'
    ∧ base_config bundle σ' base
    ∧ (∀ other τ, preserved σ' τ →
         ∃ l' τ',
           copyTLSConfig bundle other τ = Returns (Some l', τ')
           ∧ l' ≠ l
           ∧ τ' !! l = Some (per_node_config base bundle serverName l)
           ∧ τ' !! l' = Some (per_node_config base bundle other l')
           ∧ base_config bundle τ' base)
    ∧ (∀ (a : astraResolver.t) (row : Row) r τ,
         astraResolver.Create a row σ = Returns (r, τ) → preserved σ τ)
    ∧ (∀ r τ, ResolveAstra bundle σ = Returns (r, τ) → preserved σ τ).
Proof.
  intros Hbase. exists (length σ), (σ ++ [per_node_config base bundle serverName (length σ)])%list.
  assert (preserved σ (σ ++ [per_node_config base bundle serverName (length σ)])%list)
    as Hp by apply preserved_app.
  split; [by apply copyTLSConfig_spec|].
  split; [by apply lookup_ge_None_2|].
  split; [by apply list_lookup_middle|].
  split; [exact Hp|].
  split; [by eapply base_config_preserved|].
  split; [|split].
  - intros other τ Hτ.
    assert (base_config bundle τ base) as Hbτ.
    { eapply base_config_preserved; [exact Hτ|]. by eapply base_config_preserved. }
    assert (τ !! length σ = Some (per_node_config base bundle serverName (length σ)))
      as Hl by (apply Hτ; by apply list_lookup_middle).
    exists (length τ), (τ ++ [per_node_config base bundle other (length τ)])%list.
    split; [by apply copyTLSConfig_spec|].
    split; [apply lookup_lt_Some in Hl; lia|].
    split; [by apply lookup_app_l_Some|].
    split; [by apply list_lookup_middle|].
    eapply base_config_preserved; [apply preserved_app | exact Hbτ].
  - intros a row r τ. unfold astraResolver.Create, mbind, Go_bind, lift.
    destruct (ByName row "host_id") as [[hostId [e|]]|p]; [| |done].
    + unfold mret, Go_ret. intros ?; simplify_eq. apply preserved_refl.
    + destruct (assert_UUID hostId) as [uuid|p]; [|done].
      destruct (copyTLSConfig _ _ σ) as [[tlsConfig σ1]|] eqn:Hc; [|done].
      unfold mret, Go_ret. intros ?; simplify_eq.
      eapply copyTLSConfig_preserved, Hc.
  - intros r τ. unfold ResolveAstra, mbind, Go_bind.
    rewrite (Bundle_TLSConfig_clone bundle σ base Hbase). unfold peek.
    destruct (http_Get _ _) as [response|err].
    + destruct (ioutil_ReadAll (Body response)) as [body [e|]].
      * unfold mret, Go_ret. intros ?; simplify_eq. apply preserved_app.
      * destruct (json_Unmarshal body) as [metadata [e|]].
        -- unfold mret, Go_ret. intros ?; simplify_eq. apply preserved_app.
        -- destruct metadata as [metadata|]; [|done].
           destruct (astra_contact_points _ _ _ _ _) as [[eps σ1]|] eqn:Hcp; [|done].
           unfold mret, Go_ret. intros ?; simplify_eq.
           eapply preserved_trans; [apply preserved_app|].
           eapply astra_contact_points_preserved, Hcp.
    + unfold mret, Go_ret. intros ?; simplify_eq. apply preserved_app.
Qed.

(** Claim C1.  The callback that [copyTLSConfig] installs accepts a chain
    exactly when the chain parses, has a leaf, and the leaf verifies in
    the context whose roots are the bundle's CA pool, whose DNS name is
    the bundle's hostname, whose instant is the current time and whose
    intermediates are the certificates after the leaf.  A chain with
    unparsable bytes is refused with an error, and so is a chain whose
    leaf does not verify in that context (as when no CA of the pool signed
    it), with the verifier's error.  The verdict is a function of the
    bundle's pool and hostname, the instant and the chain: the server name
    the configuration was built for does not enter it. *)
Theorem VerifyPeerCertificate_verdict (bundle : Bundle.t) (serverName : string)
    (σ : store) (base : Config) :
  base_config bundle σ base →
  ∃ l σ' f,
    copyTLSConfig bundle serverName σ = Returns (Some l, σ')
    ∧ VerifyPeerCertificate <$> σ' !! l = Some (Some f)
    ∧ ∀ (τ : store) (rawCerts : list (list byte)) (chains : list (list Certificate))
        (now : Time),
        preserved σ' τ →
        call_VerifyPeerCertificate f rawCerts chains now τ
        = lift (spec_verify_chain (RootCAs base) (Bundle.host bundle) now rawCerts) τ
        ∧ (call_VerifyPeerCertificate f rawCerts chains now τ = Returns (None, τ)
           ↔ ∃ leaf rest,
               parse_certs rawCerts = inl (leaf :: rest)
               ∧ (Verify leaf (trust_context (RootCAs base) (Bundle.host bundle)
                                 now rest)).2 = None)
        ∧ (∀ raw e, raw ∈ rawCerts → ParseCertificate raw = inr e →
             ∃ e', call_VerifyPeerCertificate f rawCerts chains now τ
                   = Returns (Some e', τ))
        ∧ (∀ leaf rest e,
             parse_certs rawCerts = inl (leaf :: rest) →
             (Verify leaf (trust_context (RootCAs base) (Bundle.host bundle)
                             now rest)).2 = Some e →
             call_VerifyPeerCertificate f rawCerts chains now τ = Returns (Some e, τ)).
Proof.
  intros Hbase.
  exists (length σ), (σ ++ [per_node_config base bundle serverName (length σ)])%list,
    {| captured_tlsConfig := Some (length σ); captured_bundle := bundle |}.
  split; [by apply copyTLSConfig_spec|].
  split; [by rewrite list_lookup_middle|].
  intros τ rawCerts chains now Hτ.
  assert (τ !! length σ = Some (per_node_config base bundle serverName (length σ)))
    as Hl by (apply Hτ; by apply list_lookup_middle).
  rewrite (call_VerifyPeerCertificate_spec _ _ _ rawCerts chains now τ Hl).
  cbn [per_node_config RootCAs]. unfold spec_verify_chain.
  split; [done|]. split; [|split].
  - split.
    + destruct (parse_certs rawCerts) as [[|leaf rest]|e]; cbn [lift]; try done.
      intros Hv. exists leaf, rest. split; [done|]. by simplify_eq.
    + intros (leaf & rest & -> & Hv). cbn [lift]. by rewrite Hv.
  - intros raw e Hin Hraw.
    destruct (parse_certs_unparsable rawCerts raw e Hin Hraw) as [e' ->].
    by exists e'.
  - intros leaf rest e -> Hv. cbn [lift]. by rewrite Hv.
Qed.

End TrustBuilder.

(** ** The cloud strategy *)

Section Cloud.
Context `{Codec} `{X509} `{!Http}.

(** [ResolveAstra], once the client configuration has been cloned: the
    rest runs in a store [σ1] that keeps every object of [σ]. *)
Lemma ResolveAstra_run (b : Bundle.t) (σ : store) :
  valid_bundle b σ →
  ∃ σ1, preserved σ σ1 ∧
    ResolveAstra b σ
    = match http_Get (Bundle.tlsConfig b ≫= (fun l => σ !! l)) (metadata_url b) with
      | inr err =>
          Returns ((None, Some (errorString ("unable to get metadata from "
                                             +:+ metadata_url b +:+ ": " +:+ Error err))),
                   σ1)
      | inl response =>
          match Body response with
          | (body, Some e) => Returns ((None, Some e), σ1)
          | (body, None) =>
              match json_Unmarshal body with
              | (_, Some e) => Returns ((None, Some e), σ1)
              | (None, None) => Panics NilPointerDereference
              | (Some metadata, None) =>
                  match astra_contact_points b (SniProxyAddress (ContactInfo metadata))
                          (ContactPoints (ContactInfo metadata)) [] σ1 with
                  | Returns (endpoints, σ') =>
                      Returns ((Some (AstraResolver
                                        {| astraResolver.contactPoints := endpoints;
                                           astraResolver.host :=
                                             SniProxyAddress (ContactInfo metadata);
                                           astraResolver.bundle := b |}),
                                None), σ')
                  | Panics p => Panics p
                  end
              end
          end
      end.
Proof.
  unfold valid_bundle, ResolveAstra, mbind, Go_bind, Bundle_TLSConfig, peek, ioutil_ReadAll.
  destruct (Bundle.tlsConfig b) as [l|] eqn:Hl.
  - intros [base Hbase]. exists (σ ++ [base])%list. split; [apply preserved_app|].
    unfold mbind, Go_bind, load, alloc, option_bind.
    rewrite !Hbase. rewrite list_lookup_middle by done.
    destruct (http_Get _ _) as [response|err]; [|done].
    destruct (Body response) as [body [e|]]; [done|].
    destruct (json_Unmarshal body) as [[metadata|] [e|]]; done.
  - intros _. exists σ. split; [apply preserved_refl|].
    unfold mret, Go_ret, option_bind.
    destruct (http_Get _ _) as [response|err]; [|done].
    destruct (Body response) as [body [e|]]; [done|].
    destruct (json_Unmarshal body) as [[metadata|] [e|]]; done.
Qed.

Lemma base_config_valid (b : Bundle.t) (σ : store) (base : Config) :
  base_config b σ base → valid_bundle b σ.
Proof. intros (l & Hl & Hbase). unfold valid_bundle. rewrite Hl. by exists base. Qed.

(** [ResolveAstra] returns only from a store in which the bundle is valid. *)
Lemma ResolveAstra_returns_valid (b : Bundle.t) (σ σ' : store)
    (r : option EndpointFactory * option error) :
  ResolveAstra b σ = Returns (r, σ') → valid_bundle b σ.
Proof.
  unfold valid_bundle, ResolveAstra, mbind, Go_bind, Bundle_TLSConfig.
  destruct (Bundle.tlsConfig b) as [l|]; [|done].
  unfold mbind, Go_bind, load. destruct (σ !! l) as [base|]; [by eauto | done].
Qed.

(** A factory returned by [ResolveAstra] is the cloud resolver of the
    bootstrap metadata. *)
Lemma ResolveAstra_factory (b : Bundle.t) (σ σ' : store) (f : EndpointFactory)
    (err : option error) :
  ResolveAstra b σ = Returns ((Some f, err), σ') →
  ∃ metadata endpoints σ1,
    bootstrap_metadata b σ = Some metadata
    ∧ astra_contact_points b (SniProxyAddress (ContactInfo metadata))
        (ContactPoints (ContactInfo metadata)) [] σ1 = Returns (endpoints, σ')
    ∧ f = AstraResolver {| astraResolver.contactPoints := endpoints;
                           astraResolver.host := SniProxyAddress (ContactInfo metadata);
                           astraResolver.bundle := b |}.
Proof.
  intros Hr. pose proof (ResolveAstra_returns_valid _ _ _ _ Hr) as Hvalid.
  destruct (ResolveAstra_run b σ Hvalid) as (σ1 & _ & Hrun).
  rewrite Hrun in Hr. unfold bootstrap_metadata.
  destruct (http_Get _ _) as [response|e]; [|by simplify_eq].
  destruct (Body response) as [body [e|]]; [by simplify_eq|].
  destruct (json_Unmarshal body) as [[metadata|] [e|]]; try by simplify_eq.
  destruct (astra_contact_points _ _ _ _ _) as [[endpoints σ2]|] eqn:Hcp; [|done].
  simplify_eq. by exists metadata, endpoints, σ1.
Qed.

(** [Create] of the cloud strategy on a row whose [host_id] decodes. *)
Lemma astra_Create_spec (a : astraResolver.t) (row : Row) (u : UUID) (σ : store)
    (base : Config) :
  ByName row "host_id" = Returns (VUUID u, None) →
  base_config (astraResolver.bundle a) σ base →
  astraResolver.Create a row σ
  = Returns ((Some (AstraEndpoint {| astraEndpoint.addr := astraResolver.host a;
                                     astraEndpoint.tlsConfig := Some (length σ) |}),
              None),
             (σ ++ [per_node_config base (astraResolver.bundle a) (UUID_String u)
                      (length σ)])%list).
Proof.
  intros Hid Hbase. unfold astraResolver.Create, mbind, Go_bind.
  rewrite Hid. cbn [lift assert_UUID].
  by rewrite (copyTLSConfig_spec _ _ _ _ Hbase).
Qed.

Lemma astra_Key_spec (addr : string) (l : loc) (cfg : Config) (τ : store) :
  τ !! l = Some cfg →
  astraEndpoint.Key {| astraEndpoint.addr := addr; astraEndpoint.tlsConfig := Some l |} τ
  = Returns (addr +:+ ":" +:+ ServerName cfg, τ).
Proof.
  intros Hl. unfold astraEndpoint.Key, mbind, Go_bind, load.
  cbn [astraEndpoint.tlsConfig astraEndpoint.addr]. by rewrite Hl.
Qed.

(** Claim C4.  For the factory that [ResolveAstra] returned, [Create] on a
    row whose [host_id] decodes to [u] produces an endpoint whose [Addr()]
    is the [sni_proxy_address] of the bootstrap metadata, whose
    [TlsConfig().ServerName] is the string form of [u], and whose [Key()]
    is the address, ":" and that server name, in this order. *)
Theorem cloud_Create_endpoint (bundle : Bundle.t) (σ0 σ1 : store) (f : EndpointFactory)
    (row : Row) (u : UUID) (σ : store) (base : Config) :
  ResolveAstra bundle σ0 = Returns ((Some f, None), σ1) →
  ByName row "host_id" = Returns (VUUID u, None) →
  base_config bundle σ base →
  ∃ metadata e σ' cfg,
    bootstrap_metadata bundle σ0 = Some metadata
    ∧ EndpointFactory_Create f row σ = Returns ((Some e, None), σ')
    ∧ Endpoint_Addr e = SniProxyAddress (ContactInfo metadata)
    ∧ load (Endpoint_TlsConfig e) σ' = Returns (cfg, σ')
    ∧ ServerName cfg = UUID_String u
    ∧ Endpoint_Key e σ'
      = Returns (Endpoint_Addr e +:+ ":" +:+ ServerName cfg, σ')
    ∧ Endpoint_Key e σ'
      = Returns (SniProxyAddress (ContactInfo metadata) +:+ ":" +:+ UUID_String u, σ').
Proof.
  intros Hr Hid Hbase.
  destruct (ResolveAstra_factory _ _ _ _ _ Hr) as (metadata & endpoints & σ2 & Hmd & _ & ->).
  eexists metadata, _, _, _.
  split; [exact Hmd|].
  cbn [EndpointFactory_Create].
  split; [by apply (astra_Create_spec _ row u σ base)|].
  cbn [Endpoint_Addr astraEndpoint.Addr astraEndpoint.addr astraResolver.host
       Endpoint_TlsConfig astraEndpoint.TlsConfig astraEndpoint.tlsConfig
       Endpoint_Key astraResolver.bundle].
  split; [done|].
  split; [unfold load; by rewrite list_lookup_middle|].
  split; [done|].
  split; by rewrite (astra_Key_spec _ _ _ _ (list_lookup_middle _ _ _ _ eq_refl)).
Qed.

(** Claim C5.  Two rows whose [host_id] values differ give, by two calls
    of [Create] on one cloud factory, two endpoints with the same [Addr()]
    and different [Key()] values. *)
Theorem cloud_Create_distinct_keys (a : astraResolver.t) (row1 row2 : Row) (u1 u2 : UUID)
    (σ : store) (base : Config) :
  ByName row1 "host_id" = Returns (VUUID u1, None) →
  ByName row2 "host_id" = Returns (VUUID u2, None) →
  u1 ≠ u2 →
  base_config (astraResolver.bundle a) σ base →
  ∃ e1 e2 σ1 σ2 k1 k2,
    astraResolver.Create a row1 σ = Returns ((Some e1, None), σ1)
    ∧ astraResolver.Create a row2 σ1 = Returns ((Some e2, None), σ2)
    ∧ Endpoint_Addr e1 = Endpoint_Addr e2
    ∧ Endpoint_Key e1 σ2 = Returns (k1, σ2)
    ∧ Endpoint_Key e2 σ2 = Returns (k2, σ2)
    ∧ k1 ≠ k2.
Proof.
  intros Hid1 Hid2 Hne Hbase.
  set (c1 := per_node_config base (astraResolver.bundle a) (UUID_String u1) (length σ)).
  assert (base_config (astraResolver.bundle a) (σ ++ [c1])%list base) as Hbase1
    by (eapply base_config_preserved; [apply preserved_app | exact Hbase]).
  eexists _, _, _, _, _, _.
  split; [by apply (astra_Create_spec a row1 u1 σ base)|].
  split; [by apply (astra_Create_spec a row2 u2 _ base)|].
  split; [done|].
  cbn [Endpoint_Key].
  split; [apply astra_Key_spec; apply lookup_app_l_Some; by apply list_lookup_middle|].
  split; [apply astra_Key_spec; by apply list_lookup_middle|].
  cbn [per_node_config ServerName]. subst c1. cbn [per_node_config ServerName].
  intros Heq. apply append_inj_length in Heq as [_ Heq]; [|done].
  apply append_inj_length in Heq as [_ Heq]; [|done].
  by apply UUID_String_inj in Heq.
Qed.

End Cloud.

(** ** Bootstrap failures and the endpoint flags *)

Section Bootstrap.
Context `{Codec} `{X509} `{!Http} `{Net}.

(** Claim C2, as the code has it.  When the bundle is valid: if the fetch
    of the metadata suffers a transport failure, [ResolveAstra] fails with
    an error whose text names the metadata URL; if the body cannot be read
    to its end, or is not well-formed JSON, [ResolveAstra] fails with the
    reader's or the decoder's error.  In each case no factory, hence no
    contact point, is returned.  The status code of the response does not
    enter. *)
Theorem ResolveAstra_fetch_failure (bundle : Bundle.t) (σ : store) :
  valid_bundle bundle σ →
  (∀ err,
     http_Get (Bundle.tlsConfig bundle ≫= (fun l => σ !! l)) (metadata_url bundle)
     = inr err →
     ∃ σ', ResolveAstra bundle σ
           = Returns ((None, Some (errorString ("unable to get metadata from "
                                                +:+ metadata_url bundle +:+ ": "
                                                +:+ Error err))), σ'))
  ∧ (∀ response body e,
       http_Get (Bundle.tlsConfig bundle ≫= (fun l => σ !! l)) (metadata_url bundle)
       = inl response →
       Body response = (body, Some e) →
       ∃ σ', ResolveAstra bundle σ = Returns ((None, Some e), σ'))
  ∧ (∀ response body metadata e,
       http_Get (Bundle.tlsConfig bundle ≫= (fun l => σ !! l)) (metadata_url bundle)
       = inl response →
       Body response = (body, None) →
       json_Unmarshal body = (metadata, Some e) →
       ∃ σ', ResolveAstra bundle σ = Returns ((None, Some e), σ')).
Proof.
  intros Hvalid. destruct (ResolveAstra_run bundle σ Hvalid) as (σ1 & _ & ->).
  split; [|split].
  - intros err ->. by exists σ1.
  - intros response body e -> ->. by exists σ1.
  - intros response body metadata e -> -> ->. exists σ1. by destruct metadata.
Qed.

Lemma resolve_contact_points_resolved (contactPoints : list string) (defaultPort : Z)
    (acc endpoints : list Endpoint) :
  resolve_contact_points contactPoints defaultPort acc = Returns (inl endpoints) →
  Forall (fun e => Endpoint_IsResolved e = true) acc →
  Forall (fun e => Endpoint_IsResolved e = true) endpoints.
Proof.
  revert acc. induction contactPoints as [|cp cps IH]; intros acc; simpl.
  - unfold mret, outcome_ret. intros ? Hacc; by simplify_eq.
  - assert (∀ port addrs, Forall (fun e => Endpoint_IsResolved e = true) acc →
              Forall (fun e => Endpoint_IsResolved e = true)
                (acc ++ map (fun addr => DefaultEndpoint
                     {| defaultEndpoint.addr := addr +:+ ":" +:+ itoa port |}) addrs)%list)
      as Hstep.
    { intros port addrs Hacc. apply Forall_app. split; [exact Hacc|].
      apply Forall_forall. intros e He. apply list_elem_of_In, in_map_iff in He.
      by destruct He as (addr & <- & _). }
    unfold mbind, outcome_bind, index, mret, outcome_ret.
    intros Hrest Hacc.
    repeat case_match; simplify_eq; (eapply IH; [eassumption | by apply Hstep]).
Qed.

Lemma default_Create_resolved (d : defaultEndpointFactory.t) (row : Row) (e : Endpoint)
    (err : option error) :
  defaultEndpointFactory.Create d row = Returns (Some e, err) →
  Endpoint_IsResolved e = true.
Proof.
  unfold defaultEndpointFactory.Create, mbind, outcome_bind, mret, outcome_ret.
  intros Hc. repeat case_match; by simplify_eq.
Qed.

Lemma astra_Create_unresolved (a : astraResolver.t) (row : Row) (e : Endpoint)
    (err : option error) (τ τ' : store) :
  astraResolver.Create a row τ = Returns ((Some e, err), τ') →
  Endpoint_IsResolved e = false.
Proof.
  unfold astraResolver.Create, mbind, Go_bind, mret, Go_ret, lift.
  intros Hc. repeat case_match; by simplify_eq.
Qed.

(** Claim C10.  Every endpoint of the cloud strategy, whether a contact
    point of the factory [ResolveAstra] returns or a result of its
    [Create], reports [IsResolved() == false]; every endpoint of the direct
    strategy, whether a contact point of the factory
    [ResolveWithDefaultPort] returns or a result of its [Create], reports
    [IsResolved() == true]; and for both variants [String()] is [Key()]. *)
Theorem endpoints_IsResolved_and_String :
  (∀ bundle σ f err σ',
     ResolveAstra bundle σ = Returns ((Some f, err), σ') →
     Forall (fun e => Endpoint_IsResolved e = false) (EndpointFactory_ContactPoints f)
     ∧ ∀ row τ e err' τ',
         EndpointFactory_Create f row τ = Returns ((Some e, err'), τ') →
         Endpoint_IsResolved e = false)
  ∧ (∀ contactPoints defaultPort f err,
       ResolveWithDefaultPort contactPoints defaultPort = Returns (Some f, err) →
       Forall (fun e => Endpoint_IsResolved e = true) (EndpointFactory_ContactPoints f)
       ∧ ∀ row τ e err' τ',
           EndpointFactory_Create f row τ = Returns ((Some e, err'), τ') →
           Endpoint_IsResolved e = true)
  ∧ (∀ e : Endpoint, Endpoint_String e = Endpoint_Key e).
Proof.
  split; [|split].
  - intros bundle σ f err σ' Hr.
    destruct (ResolveAstra_factory _ _ _ _ _ Hr) as (md & eps & σ1 & _ & Hcp & ->).
    split.
    + cbn [EndpointFactory_ContactPoints astraResolver.ContactPoints
           astraResolver.contactPoints].
      eapply astra_contact_points_unresolved; [exact Hcp | apply Forall_nil_2].
    + intros row τ e err' τ'. cbn [EndpointFactory_Create].
      apply astra_Create_unresolved.
  - intros contactPoints defaultPort f err.
    unfold ResolveWithDefaultPort, mbind, outcome_bind, mret, outcome_ret.
    destruct (resolve_contact_points contactPoints defaultPort [])
      as [[endpoints|e]|p] eqn:Hcp; [|done|done].
    intros ?; simplify_eq. split.
    + cbn [EndpointFactory_ContactPoints defaultEndpointFactory.ContactPoints
           defaultEndpointFactory.contactPoints].
      eapply resolve_contact_points_resolved; [exact Hcp | apply Forall_nil_2].
    + intros row τ e err' τ'. cbn [EndpointFactory_Create]. unfold lift.
      destruct (defaultEndpointFactory.Create _ row) as [[oe oerr]|p] eqn:Hc; [|done].
      intros ?; simplify_eq. eapply default_Create_resolved, Hc.
  - intros [e|a]; reflexivity.
Qed.

End Bootstrap.

(** * The properties on concrete inputs *)

Lemma ByName_eq_ByPos_witness :
  @ByName sampleCodec (sampleRow sampleColumns (peerRow [x0a; x00; x00; x09])) "rpc_address"
  = @ByPos sampleCodec (sampleRow sampleColumns (peerRow [x0a; x00; x00; x09])) 1
  ∧ @ByPos sampleCodec (sampleRow sampleColumns (peerRow [x0a; x00; x00; x09])) 1
    = Returns (VIP [x0a; x00; x00; x09], None).
Proof.
  split; [|vm_compute; reflexivity].
  apply (@ByName_eq_ByPos sampleCodec
           (sampleRows sampleColumns (peerRow [x0a; x00; x00; x09])) tt
           (peerRow [x0a; x00; x00; x09]) 1 (sampleColumn "rpc_address" Inet)).
  - reflexivity.
  - intros k c' Hk Hc'. destruct k as [|[|[|k]]]; simpl in Hc'; try lia.
    + injection Hc' as <-. discriminate.
    + discriminate Hc'.
Defined.

Lemma NewResultSet_duplicate_last_wins_witness :
  columnIndexes (@NewResultSet sampleCodec
                   (sampleRows twiceNamed [[x61]; [x0a; x00; x00; x09]]) tt)
    !! "address" = Some 1
  ∧ @ByName sampleCodec (sampleRow twiceNamed [[x61]; [x0a; x00; x00; x09]]) "address"
    = Returns (VIP [x0a; x00; x00; x09], None).
Proof.
  destruct (@NewResultSet_duplicate_last_wins sampleCodec
              (sampleRows twiceNamed [[x61]; [x0a; x00; x00; x09]]) tt
              [[x61]; [x0a; x00; x00; x09]] "address" 0 1
              (sampleColumn "address" Varchar) (sampleColumn "address" Inet))
    as (Hindex & _ & Hdecode).
  - lia.
  - reflexivity.
  - reflexivity.
  - reflexivity.
  - reflexivity.
  - intros k c Hk Hc. destruct k as [|[|k]]; simpl in Hc; try lia. discriminate Hc.
  - split; [exact Hindex|]. exact (Hdecode [x0a; x00; x00; x09] eq_refl).
Defined.

Lemma Create_rpc_address_or_peer_witness :
  @defaultEndpointFactory.Create sampleCodec direct9042
    (sampleRow sampleColumns (peerRow [x00; x00; x00; x00]))
  = Returns (Some (DefaultEndpoint {| defaultEndpoint.addr := "10.0.0.5:9042" |}), None)
  ∧ @defaultEndpointFactory.Create sampleCodec direct9042
      (sampleRow sampleColumns (peerRow [x0a; x00; x00; x09]))
    = Returns (Some (DefaultEndpoint {| defaultEndpoint.addr := "10.0.0.9:9042" |}), None).
Proof.
  split.
  - destruct (@Create_rpc_address_or_peer sampleCodec direct9042
                (sampleRow sampleColumns (peerRow [x00; x00; x00; x00]))
                (VIP [x0a; x00; x00; x05]) None [x00; x00; x00; x00])
      as (_ & _ & Hexample).
    + vm_compute; reflexivity.
    + reflexivity.
    + vm_compute; reflexivity.
    + exact (proj1 (Hexample eq_refl) eq_refl eq_refl).
  - destruct (@Create_rpc_address_or_peer sampleCodec direct9042
                (sampleRow sampleColumns (peerRow [x0a; x00; x00; x09]))
                (VIP [x0a; x00; x00; x05]) None [x0a; x00; x00; x09])
      as (_ & _ & Hexample).
    + vm_compute; reflexivity.
    + reflexivity.
    + vm_compute; reflexivity.
    + exact (proj2 (Hexample eq_refl) eq_refl).
Defined.

Lemma Create_missing_columns_witness :
  (∃ e, @defaultEndpointFactory.Create sampleCodec direct9042
          (sampleRow [sampleColumn "peer" Inet] [[x0a; x00; x00; x05]])
        = Returns (None, Some e))
  ∧ @defaultEndpointFactory.Create sampleCodec direct9042
      (sampleRow [sampleColumn "rpc_address" Inet] [[x0a; x00; x00; x09]])
    = Returns (Some (DefaultEndpoint {| defaultEndpoint.addr := "10.0.0.9:9042" |}), None)
  ∧ @defaultEndpointFactory.Create sampleCodec direct9042
      (sampleRow [sampleColumn "rpc_address" Inet] [[x00; x00; x00; x00]])
    = Panics (InterfaceConversion "net.IP").
Proof.
  split; [|split].
  - destruct (@Create_missing_columns sampleCodec direct9042
                (sampleRows [sampleColumn "peer" Inet] [[x0a; x00; x00; x05]]) tt
                [[x0a; x00; x00; x05]] eq_refl) as [Hrpc _].
    apply Hrpc. intros c Hc. apply list_elem_of_singleton in Hc as ->. discriminate.
  - destruct (@Create_missing_columns sampleCodec direct9042
                (sampleRows [sampleColumn "rpc_address" Inet] [[x0a; x00; x00; x09]]) tt
                [[x0a; x00; x00; x09]] eq_refl) as [_ Hpeer].
    destruct Hpeer as (Hok & _ & _).
    + intros c Hc. apply list_elem_of_singleton in Hc as ->. discriminate.
    + apply (Hok [x0a; x00; x00; x09]); [vm_compute; reflexivity|].
      intros [Hz|[Hz|Hz]]; discriminate Hz.
  - destruct (@Create_missing_columns sampleCodec direct9042
                (sampleRows [sampleColumn "rpc_address" Inet] [[x00; x00; x00; x00]]) tt
                [[x00; x00; x00; x00]] eq_refl) as [_ Hpeer].
    destruct Hpeer as (_ & Hpanic & _).
    + intros c Hc. apply list_elem_of_singleton in Hc as ->. discriminate.
    + apply (Hpanic [x00; x00; x00; x00]); [vm_compute; reflexivity|]. by left.
Defined.

Lemma sampleBase_config (h : string) :
  @base_config toyX509 (sampleBundle h) [sampleBase] sampleBase.
Proof. exists 0%nat. split; reflexivity. Qed.

Lemma copyTLSConfig_leaves_bundle_unmodified_witness :
  ∃ l σ',
    @copyTLSConfig toyX509 (sampleBundle "metadata.example") "node-a" [sampleBase]
    = Returns (Some l, σ')
    ∧ σ' !! 0%nat = Some sampleBase
    ∧ ∃ l' τ',
        @copyTLSConfig toyX509 (sampleBundle "metadata.example") "node-b" σ'
        = Returns (Some l', τ')
        ∧ l' ≠ l
        ∧ @ServerName toyX509 <$> τ' !! l = Some "node-a"
        ∧ @ServerName toyX509 <$> τ' !! l' = Some "node-b"
        ∧ τ' !! 0%nat = Some sampleBase.
Proof.
  destruct (@copyTLSConfig_leaves_bundle_unmodified toyX509 sampleHttp sampleCodec
              (sampleBundle "metadata.example") "node-a" [sampleBase] sampleBase
              (sampleBase_config "metadata.example"))
    as (l & σ' & Hcopy & _ & _ & Hkept & _ & Hlater & _).
  exists l, σ'. split; [exact Hcopy|]. split; [by apply Hkept|].
  destruct (Hlater "node-b" σ' (fun _ _ Hl => Hl))
    as (l' & τ' & Hcopy' & Hne & Hfirst & Hsecond & (lb & Hlb & Hbase)).
  exists l', τ'. split; [exact Hcopy'|]. split; [exact Hne|].
  split; [by rewrite Hfirst|]. split; [by rewrite Hsecond|].
  injection Hlb as <-. exact Hbase.
Defined.

Lemma VerifyPeerCertificate_verdict_witness :
  ∃ l σ' f,
    @copyTLSConfig toyX509 (sampleBundle "metadata.example") "node-a" [sampleBase]
    = Returns (Some l, σ')
    ∧ @VerifyPeerCertificate toyX509 <$> σ' !! l = Some (Some f)
    ∧ @call_VerifyPeerCertificate toyX509 f
        [[x02; x01; x64; x6d; x65; x74; x61; x64; x61; x74; x61; x2e; x65; x78; x61; x6d;
          x70; x6c; x65]] [] 50%N σ'
      = @lift toyX509 _
          (@spec_verify_chain toyX509 sampleRoots "metadata.example" 50%N
             [[x02; x01; x64; x6d; x65; x74; x61; x64; x61; x74; x61; x2e; x65; x78; x61;
               x6d; x70; x6c; x65]]) σ'.
Proof.
  destruct (@VerifyPeerCertificate_verdict toyX509 (sampleBundle "metadata.example")
              "node-a" [sampleBase] sampleBase (sampleBase_config "metadata.example"))
    as (l & σ' & f & Hcopy & Hf & Hcall).
  exists l, σ', f. split; [exact Hcopy|]. split; [exact Hf|].
  exact (proj1 (Hcall σ' _ [] 50%N (fun _ _ Hl => Hl))).
Defined.

Lemma sample_ResolveAstra :
  @ResolveAstra toyX509 sampleHttp (sampleBundle "metadata.example") [sampleBase]
  = Returns ((Some sampleFactory, None), sampleStore).
Proof. vm_compute; reflexivity. Qed.

Lemma sample_host_id (peer rpc : list byte) :
  @ByName sampleCodec (sampleRow sampleColumns [peer; rpc; uuid_a]) "host_id"
  = Returns (VUUID uuid_a_vec, None).
Proof. vm_compute; reflexivity. Qed.

Lemma sample_host_id_b (peer rpc : list byte) :
  @ByName sampleCodec (sampleRow sampleColumns [peer; rpc; uuid_b]) "host_id"
  = Returns (VUUID uuid_b_vec, None).
Proof. vm_compute; reflexivity. Qed.

Lemma sampleStore_base_config :
  @base_config toyX509 (sampleBundle "metadata.example") sampleStore sampleBase.
Proof. exists 0%nat. split; reflexivity. Qed.

Lemma cloud_Create_endpoint_witness :
  ∃ metadata e σ' cfg,
    @bootstrap_metadata toyX509 sampleHttp (sampleBundle "metadata.example") [sampleBase]
    = Some metadata
    ∧ @EndpointFactory_Create sampleCodec toyX509 sampleFactory
        (sampleRow sampleColumns (peerRow [x0a; x00; x00; x09])) sampleStore
      = Returns ((Some e, None), σ')
    ∧ Endpoint_Addr e = SniProxyAddress (ContactInfo metadata)
    ∧ @load toyX509 (Endpoint_TlsConfig e) σ' = Returns (cfg, σ')
    ∧ @ServerName toyX509 cfg = UUID_String uuid_a_vec
    ∧ @Endpoint_Key toyX509 e σ'
      = Returns (Endpoint_Addr e +:+ ":" +:+ @ServerName toyX509 cfg, σ')
    ∧ @Endpoint_Key toyX509 e σ'
      = Returns (SniProxyAddress (ContactInfo metadata) +:+ ":"
                   +:+ UUID_String uuid_a_vec, σ').
Proof.
  exact (@cloud_Create_endpoint sampleCodec toyX509 sampleHttp
           (sampleBundle "metadata.example") [sampleBase] sampleStore sampleFactory
           (sampleRow sampleColumns (peerRow [x0a; x00; x00; x09])) uuid_a_vec
           sampleStore sampleBase sample_ResolveAstra
           (sample_host_id [x0a; x00; x00; x05] [x0a; x00; x00; x09])
           sampleStore_base_config).
Defined.

Lemma uuid_a_b_differ : uuid_a_vec ≠ uuid_b_vec.
Proof. intros Heq. apply (f_equal vec_to_list) in Heq. discriminate Heq. Qed.

Lemma cloud_Create_distinct_keys_witness :
  ∃ e1 e2 σ1 σ2 k1 k2,
    @astraResolver.Create sampleCodec toyX509 sampleResolver
      (sampleRow sampleColumns [[x0a; x00; x00; x05]; [x0a; x00; x00; x09]; uuid_a])
      [sampleBase] = Returns ((Some e1, None), σ1)
    ∧ @astraResolver.Create sampleCodec toyX509 sampleResolver
        (sampleRow sampleColumns [[x0a; x00; x00; x06]; [x0a; x00; x00; x0a]; uuid_b])
        σ1 = Returns ((Some e2, None), σ2)
    ∧ Endpoint_Addr e1 = Endpoint_Addr e2
    ∧ @Endpoint_Key toyX509 e1 σ2 = Returns (k1, σ2)
    ∧ @Endpoint_Key toyX509 e2 σ2 = Returns (k2, σ2)
    ∧ k1 ≠ k2.
Proof.
  exact (@cloud_Create_distinct_keys sampleCodec toyX509 sampleResolver
           (sampleRow sampleColumns [[x0a; x00; x00; x05]; [x0a; x00; x00; x09]; uuid_a])
           (sampleRow sampleColumns [[x0a; x00; x00; x06]; [x0a; x00; x00; x0a]; uuid_b])
           uuid_a_vec uuid_b_vec [sampleBase] sampleBase
           (sample_host_id [x0a; x00; x00; x05] [x0a; x00; x00; x09])
           (sample_host_id_b [x0a; x00; x00; x06] [x0a; x00; x00; x0a])
           uuid_a_b_differ (sampleBase_config "metadata.example")).
Defined.

Lemma ResolveAstra_fetch_failure_witness :
  (∃ σ', @ResolveAstra toyX509 sampleHttp (sampleBundle "down.example") [sampleBase]
         = Returns ((None,
                     Some (errorString
                             "unable to get metadata from https://down.example:29080/metadata: dial tcp: connection refused")),
                    σ'))
  ∧ (∃ e σ', @ResolveAstra toyX509 sampleHttp (sampleBundle "html.example") [sampleBase]
             = Returns ((None, Some e), σ')).
Proof.
  split.
  - destruct (@ResolveAstra_fetch_failure toyX509 sampleHttp
                (sampleBundle "down.example") [sampleBase]) as (Hdown & _ & _).
    + by exists sampleBase.
    + exact (Hdown (errorString "dial tcp: connection refused") eq_refl).
  - destruct (@ResolveAstra_fetch_failure toyX509 sampleHttp
                (sampleBundle "html.example") [sampleBase]) as (_ & _ & Hjson).
    + by exists sampleBase.
    + eexists. eapply (Hjson _ "<html>"); reflexivity.
Defined.

(** Counterexample to claim C2 as stated: the metadata service answers
    with status 500 and the body [{}]; [ResolveAstra] returns a factory
    and no error. *)
Lemma ResolveAstra_ignores_status :
  ∃ response,
    sampleGet (Some sampleBase) (metadata_url (sampleBundle "broken.example"))
    = inl response
    ∧ StatusCode response = 500
    ∧ ¬ (200 ≤ StatusCode response < 300)
    ∧ @ResolveAstra toyX509 sampleHttp (sampleBundle "broken.example") [sampleBase]
      = Returns ((Some (AstraResolver
                          {| astraResolver.contactPoints := [];
                             astraResolver.host := "";
                             astraResolver.bundle := sampleBundle "broken.example" |}),
                  None),
                 [sampleBase; sampleBase]).
Proof.
  exists {| StatusCode := 500; Body := ("{}", None) |}.
  split; [vm_compute; reflexivity|]. split; [reflexivity|].
  split; [simpl; lia|]. vm_compute; reflexivity.
Qed.

Lemma sample_ResolveWithDefaultPort :
  @ResolveWithDefaultPort sampleNet ["10.0.0.1"; "10.0.0.2:9043"] 9042
  = Returns (Some directFactory, None).
Proof. vm_compute; reflexivity. Qed.

Lemma endpoints_IsResolved_and_String_witness :
  Forall (fun e => Endpoint_IsResolved e = false)
    (EndpointFactory_ContactPoints sampleFactory)
  ∧ Forall (fun e => Endpoint_IsResolved e = true)
      (EndpointFactory_ContactPoints directFactory).
Proof.
  destruct (@endpoints_IsResolved_and_String sampleCodec toyX509 sampleHttp sampleNet)
    as (Hcloud & Hdirect & _).
  split.
  - exact (proj1 (Hcloud (sampleBundle "metadata.example") [sampleBase] sampleFactory
                    None sampleStore sample_ResolveAstra)).
  - exact (proj1 (Hdirect ["10.0.0.1"; "10.0.0.2:9043"] 9042 directFactory None
                    sample_ResolveWithDefaultPort)).
Defined.

(** ** Runs of the formatting code and of the verification callback *)

Example IP_String_v4 : IP_String [x0a; x00; x00; x05] = "10.0.0.5".
Proof. reflexivity. Qed.

Example IP_String_v4_in_v6 : IP_String (IPv4 xc0 xa8 x01 xfe) = "192.168.1.254".
Proof. reflexivity. Qed.

Example IP_String_v6_zero : IP_String IPv6zero = "::".
Proof. reflexivity. Qed.

Example IP_String_v6_loopback : IP_String (replicate 15 x00 ++ [x01])%list = "::1".
Proof. reflexivity. Qed.

Example IP_String_v6_leftmost_run :
  IP_String [x20; x01; x00; x00; x00; x00; x00; x01; x00; x00; x00; x00; x00; x01; x00; x01]
  = "2001::1:0:0:1:1".
Proof. reflexivity. Qed.

Example IP_String_nil : IP_String [] = "<nil>".
Proof. reflexivity. Qed.

Example IP_String_odd_length : IP_String [x01; x02; x03] = "?010203".
Proof. reflexivity. Qed.

Example UUID_String_sample : UUID_String uuid_a_vec = "12345678-9abc-def0-0102-030405060708".
Proof. reflexivity. Qed.

Example strings_Split_colon_sample :
  strings_Split_colon "10.0.0.2:9043" = ["10.0.0.2"; "9043"]
  ∧ strings_Split_colon "" = [""]
  ∧ strings_Split_colon "a::b" = ["a"; ""; "b"].
Proof. repeat split; reflexivity. Qed.

Example callback_accepts_leaf_of_pool :
  run_callback "node-a" [leafFor x01 "metadata.example"] 50 = Returns None.
Proof. vm_compute; reflexivity. Qed.

Example callback_accepts_through_intermediate :
  run_callback "node-a" [leafFor x05 "metadata.example"; [x05; x01; x64]] 50
  = Returns None.
Proof. vm_compute; reflexivity. Qed.

Example callback_refuses_unknown_authority :
  run_callback "node-a" [leafFor x09 "metadata.example"] 50
  = Returns (Some (errorString "x509: certificate signed by unknown authority"))
  ∧ run_callback "node-b" [leafFor x09 "metadata.example"] 50
    = Returns (Some (errorString "x509: certificate signed by unknown authority")).
Proof. split; vm_compute; reflexivity. Qed.

Example callback_checks_bundle_hostname_not_sni :
  run_callback "node-a" [leafFor x01 "node-a"] 50
  = Returns (Some (errorString "x509: certificate is not valid for the requested name")).
Proof. vm_compute; reflexivity. Qed.

Example callback_refuses_expired_leaf :
  run_callback "node-a" [leafFor x01 "metadata.example"] 150
  = Returns (Some (errorString "x509: certificate has expired or is not yet valid")).
Proof. vm_compute; reflexivity. Qed.

Example callback_refuses_unparsable_bytes :
  run_callback "node-a" [leafFor x01 "metadata.example"; [x05]] 50
  = Returns (Some (errorString
       "tls: failed to parse certificate from server: x509: malformed certificate")).
Proof. vm_compute; reflexivity. Qed.

Example callback_panics_on_empty_chain :
  run_callback "node-a" [] 50 = Panics (SliceBoundsOutOfRange 1 0).
Proof. vm_compute; reflexivity. Qed.

Example Create_refuses_undecodable_peer :
  @defaultEndpointFactory.Create sampleCodec direct9042
    (sampleRow sampleColumns [[x0a; x00; x00]; [x0a; x00; x00; x09]; uuid_a])
  = Returns (None, Some (errorString "cannot decode inet")).
Proof. vm_compute; reflexivity. Qed.

(** * Further properties of the code *)

(** ** The name index and the row accessors *)

Section RowAccessors.
Context `{Codec}.

Lemma named_or_unnamed (cols : list ColumnMetadata) (n : string) :
  unnamed cols n ∨ ∃ j, last_named cols n j.
Proof.
  induction cols as [|c cols IH].
  - left. intros c Hc. by apply elem_of_nil in Hc.
  - destruct IH as [Hun|[j [(cj & Hcj & Hname) Hlast]]].
    + destruct (decide (Name c = n)) as [Heq|Hne].
      * right. exists 0%nat. split; [by exists c|].
        intros k c' Hk Hc'. destruct k as [|k]; [lia|]. simpl in Hc'.
        apply Hun. by eapply list_elem_of_lookup_2.
      * left. intros c' Hc'. apply elem_of_cons in Hc' as [->|Hc']; [done|by apply Hun].
    + right. exists (S j). split; [by exists cj|].
      intros k c' Hk Hc'. destruct k as [|k]; [lia|]. simpl in Hc'.
      apply (Hlast k c'); [lia | done].
Qed.

(** Property X1.  The index that [NewResultSet] builds holds exactly the
    names of the metadata: a name is mapped to [k] if and only if [k] is
    the position of the last column that bears the name, and it is absent
    from the index if and only if no column bears it. *)
Theorem NewResultSet_index_characterised (rows : RowsResult) (v : ProtocolVersion)
    (n : string) :
  (∀ k, columnIndexes (NewResultSet rows v) !! n = Some k
        ↔ ∃ j, k = Z.of_nat j ∧ last_named (Columns rows) n j)
  ∧ (columnIndexes (NewResultSet rows v) !! n = None ↔ unnamed (Columns rows) n).
Proof.
  split.
  - intros k. split.
    + intros Hk. destruct (named_or_unnamed (Columns rows) n) as [Hun|[j Hj]].
      * rewrite (NewResultSet_index_unnamed rows v n Hun) in Hk. discriminate Hk.
      * rewrite (NewResultSet_index_last rows v n j Hj) in Hk. exists j.
        split; [congruence | exact Hj].
    + intros (j & -> & Hj). by apply NewResultSet_index_last.
  - split.
    + intros Hnone. destruct (named_or_unnamed (Columns rows) n) as [Hun|[j Hj]]; [done|].
      rewrite (NewResultSet_index_last rows v n j Hj) in Hnone. discriminate Hnone.
    + apply NewResultSet_index_unnamed.
Qed.

(** Property X2.  [ByName] on a name that no column of the metadata bears
    returns nil and [ColumnNameNotFound], whatever the row holds: it does
    not panic, even on a row with fewer entries than columns. *)
Theorem ByName_absent_column (rows : RowsResult) (v : ProtocolVersion)
    (data : list Column) (n : string) :
  unnamed (Columns rows) n →
  ByName {| resultSet := NewResultSet rows v; row := data |} n
  = Returns (VNil, Some ColumnNameNotFound).
Proof. apply ByName_unnamed. Qed.

(** Property X3.  [ByPos] and [ByName] never return a value together with
    an error: when the error is not nil the value is nil, whatever the
    decoder returned beside its error. *)
Theorem accessors_nil_value_on_error (r : Row) :
  (∀ i val e, ByPos r i = Returns (val, Some e) → val = VNil)
  ∧ (∀ n val e, ByName r n = Returns (val, Some e) → val = VNil).
Proof.
  assert (∀ i val e, ByPos r i = Returns (val, Some e) → val = VNil) as Hpos.
  { intros i val e. unfold ByPos, mbind, outcome_bind, mret, outcome_ret.
    intros Hr. repeat case_match; by simplify_eq. }
  split; [exact Hpos|].
  intros n val e. unfold ByName.
  destruct (columnIndexes (resultSet r) !! n) as [i|]; [apply Hpos|].
  unfold mret, outcome_ret. intros Hr. by simplify_eq.
Qed.

Lemma index_returns_iff {A} (l : list A) (i : Z) :
  (∃ x, index l i = Returns x) ↔ 0 ≤ i < Z.of_nat (length l).
Proof.
  split.
  - intros [x Hx]. unfold index in Hx.
    destruct (Z.ltb_spec i 0) as [Hneg|Hpos]; [discriminate Hx|].
    destruct (l !! Z.to_nat i) as [y|] eqn:E; [|discriminate Hx].
    apply lookup_lt_Some in E. lia.
  - apply index_in_range.
Qed.

(** Property X4.  [ByPos(i)] returns (a value or a decode error) exactly
    when [i] is a position of both the column metadata and the row;
    otherwise it panics with an index out of range, a negative [i]
    included. *)
Theorem ByPos_returns_iff_in_range (r : Row) (i : Z) :
  ((∃ x, ByPos r i = Returns x)
   ↔ 0 ≤ i < Z.of_nat (length (Columns (result (resultSet r))))
     ∧ i < Z.of_nat (length (row r)))
  ∧ ((∃ len, ByPos r i = Panics (IndexOutOfRange i len))
     ↔ ¬ (0 ≤ i < Z.of_nat (length (Columns (result (resultSet r))))
          ∧ i < Z.of_nat (length (row r)))).
Proof.
  unfold ByPos, mbind, outcome_bind.
  destruct (index (Columns (result (resultSet r))) i) as [c|p] eqn:Hc.
  - assert (0 ≤ i < Z.of_nat (length (Columns (result (resultSet r))))) as Hi
      by (apply index_returns_iff; by exists c).
    destruct (index (row r) i) as [raw|p] eqn:Hraw.
    + assert (0 ≤ i < Z.of_nat (length (row r))) as Hi'
        by (apply index_returns_iff; by exists raw).
      destruct (DecodeType _ _ raw) as [val [e|]]; unfold mret, outcome_ret.
      * split; [split; [intros _; lia | by eauto]|].
        split; [by intros [len Hlen] | intros Hn; exfalso; apply Hn; lia].
      * split; [split; [intros _; lia | by eauto]|].
        split; [by intros [len Hlen] | intros Hn; exfalso; apply Hn; lia].
    + assert (¬ 0 ≤ i < Z.of_nat (length (row r))) as Hi'.
      { intros Hin. apply index_returns_iff in Hin as [x Hx]. congruence. }
      split; [split; [by intros [x Hx] | intros [_ Hlt]; exfalso; apply Hi'; lia]|].
      split; [intros _ [_ Hlt]; apply Hi'; lia|].
      intros _. unfold index in Hraw |- *.
      destruct (i <? 0); [simplify_eq; by eauto|].
      destruct (row r !! Z.to_nat i); simplify_eq; by eauto.
  - assert (¬ 0 ≤ i < Z.of_nat (length (Columns (result (resultSet r))))) as Hi.
    { intros Hin. apply index_returns_iff in Hin as [x Hx]. congruence. }
    split; [split; [by intros [x Hx] | intros [Hin _]; by exfalso]|].
    split; [intros _ [Hin _]; by apply Hi|].
    intros _. unfold index in Hc |- *.
    destruct (i <? 0); [simplify_eq; by eauto|].
    destruct (Columns (result (resultSet r)) !! Z.to_nat i); simplify_eq; by eauto.
Qed.

(** Property X5.  [Row(i)] returns exactly when [0 <= i < RowCount()]; the
    row it returns views entry [i] of the result's data and refers to the
    result set it was taken from; any other [i] panics. *)
Theorem ResultSet_Row_in_range (rs : ResultSet) (i : Z) :
  ((∃ r, ResultSet_Row rs i = Returns r) ↔ 0 ≤ i < RowCount rs)
  ∧ (∀ r, ResultSet_Row rs i = Returns r →
       resultSet r = rs ∧ Data (result rs) !! Z.to_nat i = Some (row r))
  ∧ (¬ 0 ≤ i < RowCount rs →
       ResultSet_Row rs i = Panics (IndexOutOfRange i (length (Data (result rs))))).
Proof.
  unfold ResultSet_Row, RowCount, mbind, outcome_bind, mret, outcome_ret.
  split; [|split].
  - rewrite <- index_returns_iff. split.
    + intros [r Hr]. destruct (index _ i) as [d|]; [by exists d | discriminate Hr].
    + intros [d ->]. by eexists.
  - intros r. unfold index. destruct (i <? 0); [discriminate|].
    destruct (Data (result rs) !! Z.to_nat i) as [d|]; [|discriminate].
    intros Hr. by simplify_eq.
  - intros Hout. unfold index. destruct (Z.ltb_spec i 0) as [Hneg|Hpos]; [done|].
    destruct (Data (result rs) !! Z.to_nat i) as [d|] eqn:E; [|done].
    apply lookup_lt_Some in E. lia.
Qed.

(** Property X6.  Taking row [i] of a result set and reading position [j]
    of it decodes cell [(i, j)] of the result's data with the declared
    type of column [j] and the version the result set was built with. *)
Theorem Row_ByPos_decodes_cell (rows : RowsResult) (v : ProtocolVersion) (i j : nat)
    (data : list Column) (c : ColumnMetadata) (raw : Column) :
  Data rows !! i = Some data → Columns rows !! j = Some c → data !! j = Some raw →
  (r ← ResultSet_Row (NewResultSet rows v) (Z.of_nat i); ByPos r (Z.of_nat j))
  = Returns (match DecodeType (Type_ c) v raw with
             | (_, Some e) => (VNil, Some e)
             | (val, None) => (val, None)
             end).
Proof.
  intros Hdata Hc Hraw. unfold ResultSet_Row. cbn [result NewResultSet].
  rewrite (index_lookup _ _ _ Hdata). cbn [mbind outcome_bind mret outcome_ret].
  by apply ByPos_decodes.
Qed.

End RowAccessors.

(** ** The direct strategy: resolution of contact points *)

Section DirectResolution.
Context `{Codec} `{X509} `{Net}.

Lemma strings_Split_colon_cons (s : string) :
  ∃ part parts, strings_Split_colon s = part :: parts.
Proof.
  induction s as [|c s IH]; simpl; [by eauto|].
  destruct (Ascii.eqb c ":"); [by eauto|].
  destruct IH as (part & parts & ->). by eauto.
Qed.

Lemma strings_Split_colon_no_colon (s : string) :
  no_colon s = true → strings_Split_colon s = [s].
Proof.
  induction s as [|c s IH]; simpl; [done|].
  destruct (Ascii.eqb c ":"); simpl; [done|]. intros Hs. by rewrite IH.
Qed.

Lemma strings_Split_colon_app (h t : string) :
  no_colon h = true →
  strings_Split_colon (h +:+ ":" +:+ t) = h :: strings_Split_colon t.
Proof.
  induction h as [|c h IH]; simpl; [done|].
  destruct (Ascii.eqb c ":"); simpl; [done|]. intros Hh. by rewrite IH.
Qed.

(** One turn of the loop of [ResolveWithDefaultPort], by the parts of the
    contact point. *)
Lemma resolve_contact_points_step (cp : string) (cps : list string) (defaultPort : Z)
    (acc : list Endpoint) (host : string) (rest : list string) :
  strings_Split_colon cp = host :: rest →
  resolve_contact_points (cp :: cps) defaultPort acc
  = match LookupHost host with
    | (_, Some e) =>
        Returns (inr (errorString
                        ("unable to resolve contact point " +:+ cp +:+ ": " +:+ Error e)))
    | (addrs, None) =>
        match rest with
        | [] => resolve_contact_points cps defaultPort
                  (acc ++ direct_endpoints addrs defaultPort)%list
        | p :: _ =>
            match Atoi p with
            | (_, Some e) =>
                Returns (inr (errorString
                                ("contact point " +:+ cp +:+ " has invalid port: "
                                   +:+ Error e)))
            | (port, None) =>
                resolve_contact_points cps defaultPort
                  (acc ++ direct_endpoints addrs port)%list
            end
        end
    end.
Proof.
  intros Hsplit. cbn [resolve_contact_points]. rewrite Hsplit.
  change (index (host :: rest) 0) with (Returns host). cbn [mbind outcome_bind].
  destruct (LookupHost host) as [addrs [e|]]; [done|].
  destruct rest as [|p rest]; [done|].
  change (index (host :: p :: rest) 1) with (Returns p).
  destruct (Z.ltb_spec 1 (Z.of_nat (length (host :: p :: rest)))) as [_|Hle];
    [|simpl in Hle; lia].
  cbn [mbind outcome_bind]. by destruct (Atoi p) as [port [e|]].
Qed.

Lemma resolve_contact_points_returns (cps : list string) (defaultPort : Z)
    (acc : list Endpoint) :
  ∃ r, resolve_contact_points cps defaultPort acc = Returns r.
Proof.
  revert acc. induction cps as [|cp cps IH]; intros acc; [by eexists|].
  destruct (strings_Split_colon_cons cp) as (host & rest & Hsplit).
  rewrite (resolve_contact_points_step cp cps defaultPort acc host rest Hsplit).
  destruct (LookupHost host) as [addrs [e|]]; [by eexists|].
  destruct rest as [|p rest]; [apply IH|].
  destruct (Atoi p) as [port [e|]]; [by eexists | apply IH].
Qed.

Lemma resolve_contact_points_acc (cps : list string) (defaultPort : Z)
    (acc : list Endpoint) :
  resolve_contact_points cps defaultPort acc
  = match resolve_contact_points cps defaultPort [] with
    | Returns (inl endpoints) => Returns (inl (acc ++ endpoints)%list)
    | Returns (inr e) => Returns (inr e)
    | Panics p => Panics p
    end.
Proof.
  revert acc. induction cps as [|cp cps IH]; intros acc.
  - simpl. unfold mret, outcome_ret. by rewrite app_nil_r.
  - destruct (strings_Split_colon_cons cp) as (host & rest & Hsplit).
    rewrite !(resolve_contact_points_step cp cps defaultPort _ host rest Hsplit).
    destruct (LookupHost host) as [addrs [e|]]; [done|].
    assert (∀ port,
      resolve_contact_points cps defaultPort (acc ++ direct_endpoints addrs port)%list
      = match resolve_contact_points cps defaultPort
                ([] ++ direct_endpoints addrs port)%list with
        | Returns (inl endpoints) => Returns (inl (acc ++ endpoints)%list)
        | Returns (inr e) => Returns (inr e)
        | Panics p => Panics p
        end) as Hport.
    { intros port. rewrite (IH (acc ++ _)%list), (IH ([] ++ _)%list).
      destruct (resolve_contact_points cps defaultPort []) as [[eps|e]|p]; [|done|done].
      by rewrite app_nil_l, app_assoc. }
    destruct rest as [|p rest]; [apply Hport|].
    destruct (Atoi p) as [port [e|]]; [done | apply Hport].
Qed.

Lemma resolve_contact_points_app (cps1 cps2 : list string) (defaultPort : Z)
    (acc : list Endpoint) :
  resolve_contact_points (cps1 ++ cps2) defaultPort acc
  = match resolve_contact_points cps1 defaultPort acc with
    | Returns (inl endpoints) => resolve_contact_points cps2 defaultPort endpoints
    | Returns (inr e) => Returns (inr e)
    | Panics p => Panics p
    end.
Proof.
  revert acc. induction cps1 as [|cp cps1 IH]; intros acc; [done|].
  destruct (strings_Split_colon_cons cp) as (host & rest & Hsplit).
  rewrite <- app_comm_cons.
  rewrite !(resolve_contact_points_step cp _ defaultPort _ host rest Hsplit).
  destruct (LookupHost host) as [addrs [e|]]; [done|].
  destruct rest as [|p rest]; [apply IH|].
  destruct (Atoi p) as [port [e|]]; [done | apply IH].
Qed.

(** Property X7.  [ResolveWithDefaultPort] never panics: whatever the
    contact points are (empty text, any number of colons), it returns, and
    it returns either a factory with a nil error or no factory with an
    error. *)
Theorem ResolveWithDefaultPort_returns (contactPoints : list string) (defaultPort : Z) :
  (∃ endpoints,
     ResolveWithDefaultPort contactPoints defaultPort
     = Returns (Some (DefaultEndpointFactory
                        {| defaultEndpointFactory.contactPoints := endpoints;
                           defaultEndpointFactory.defaultPort := defaultPort |}),
                None))
  ∨ (∃ e, ResolveWithDefaultPort contactPoints defaultPort = Returns (None, Some e)).
Proof.
  unfold ResolveWithDefaultPort.
  destruct (resolve_contact_points_returns contactPoints defaultPort []) as [[eps|e] ->].
  - left. by exists eps.
  - right. by exists e.
Qed.

Lemma resolve_contact_points_error (cps : list string) (defaultPort : Z)
    (acc : list Endpoint) (e : error) :
  resolve_contact_points cps defaultPort acc = Returns (inr e) →
  ∃ cp host rest e',
    cp ∈ cps ∧ strings_Split_colon cp = host :: rest
    ∧ (((LookupHost host).2 = Some e'
        ∧ e = errorString ("unable to resolve contact point " +:+ cp +:+ ": "
                             +:+ Error e'))
       ∨ (∃ p rest', rest = p :: rest' ∧ (LookupHost host).2 = None
                     ∧ (Atoi p).2 = Some e'
                     ∧ e = errorString ("contact point " +:+ cp +:+ " has invalid port: "
                                          +:+ Error e'))).
Proof.
  revert acc. induction cps as [|cp cps IH]; intros acc; [discriminate|].
  destruct (strings_Split_colon_cons cp) as (host & rest & Hsplit).
  rewrite (resolve_contact_points_step cp cps defaultPort acc host rest Hsplit).
  assert (∀ acc', resolve_contact_points cps defaultPort acc' = Returns (inr e) →
            ∃ cp0 host0 rest0 e',
              cp0 ∈ cp :: cps ∧ strings_Split_colon cp0 = host0 :: rest0
              ∧ (((LookupHost host0).2 = Some e'
                  ∧ e = errorString ("unable to resolve contact point " +:+ cp0 +:+ ": "
                                       +:+ Error e'))
                 ∨ (∃ p rest', rest0 = p :: rest' ∧ (LookupHost host0).2 = None
                               ∧ (Atoi p).2 = Some e'
                               ∧ e = errorString ("contact point " +:+ cp0
                                                    +:+ " has invalid port: "
                                                    +:+ Error e')))) as Hlater.
  { intros acc' Hr. destruct (IH acc' Hr) as (cp0 & host0 & rest0 & e' & Hin & Hrest).
    exists cp0, host0, rest0, e'. split; [by right | exact Hrest]. }
  destruct (LookupHost host) as [addrs [e0|]] eqn:Hlookup.
  - intros Hr. simplify_eq. exists cp, host, rest, e0.
    split; [left|]. split; [done|]. left. by rewrite Hlookup.
  - destruct rest as [|p rest]; [apply Hlater|].
    destruct (Atoi p) as [port [e0|]] eqn:Hatoi; [|apply Hlater].
    intros Hr. simplify_eq. exists cp, host, (p :: rest), e0.
    split; [left|]. split; [done|]. right. exists p, rest.
    by rewrite Hlookup, Hatoi.
Qed.

(** Property X8.  When [ResolveWithDefaultPort] fails, its error names
    one of the given contact points: the host part of that contact point
    (the text before its first colon) did not resolve, or the host
    resolved and the port part (the text between the first and the second
    colon) is not a number; the message carries the contact point and the
    cause. *)
Theorem ResolveWithDefaultPort_error_names_contact_point (contactPoints : list string)
    (defaultPort : Z) (f : option EndpointFactory) (e : error) :
  ResolveWithDefaultPort contactPoints defaultPort = Returns (f, Some e) →
  f = None
  ∧ ∃ cp host rest e',
      cp ∈ contactPoints ∧ strings_Split_colon cp = host :: rest
      ∧ (((LookupHost host).2 = Some e'
          ∧ e = errorString ("unable to resolve contact point " +:+ cp +:+ ": "
                               +:+ Error e'))
         ∨ (∃ p rest', rest = p :: rest' ∧ (LookupHost host).2 = None
                       ∧ (Atoi p).2 = Some e'
                       ∧ e = errorString ("contact point " +:+ cp
                                            +:+ " has invalid port: " +:+ Error e'))).
Proof.
  unfold ResolveWithDefaultPort, mbind, outcome_bind, mret, outcome_ret.
  destruct (resolve_contact_points contactPoints defaultPort []) as [[eps|e0]|p] eqn:Hr;
    intros Hres; simplify_eq.
  split; [done|]. by eapply resolve_contact_points_error.
Qed.

(** Property X9.  Contact points are resolved in order and the endpoints
    are concatenated: when two lists of contact points resolve, their
    concatenation resolves to the first list's endpoints followed by the
    second's; when the first list fails, the concatenation fails with the
    same error, whatever follows. *)
Theorem ResolveWithDefaultPort_app (cps1 cps2 : list string) (defaultPort : Z) :
  (∀ d1 d2,
     ResolveWithDefaultPort cps1 defaultPort
     = Returns (Some (DefaultEndpointFactory d1), None) →
     ResolveWithDefaultPort cps2 defaultPort
     = Returns (Some (DefaultEndpointFactory d2), None) →
     ResolveWithDefaultPort (cps1 ++ cps2) defaultPort
     = Returns (Some (DefaultEndpointFactory
                        {| defaultEndpointFactory.contactPoints :=
                             (defaultEndpointFactory.contactPoints d1
                                ++ defaultEndpointFactory.contactPoints d2)%list;
                           defaultEndpointFactory.defaultPort := defaultPort |}),
                None))
  ∧ (∀ e,
       ResolveWithDefaultPort cps1 defaultPort = Returns (None, Some e) →
       ResolveWithDefaultPort (cps1 ++ cps2) defaultPort = Returns (None, Some e)).
Proof.
  unfold ResolveWithDefaultPort, mbind, outcome_bind, mret, outcome_ret.
  rewrite resolve_contact_points_app.
  destruct (resolve_contact_points cps1 defaultPort []) as [[eps1|e1]|p1];
    (split; [intros d1 d2 Hr1 Hr2 | intros e Hr1]); simplify_eq.
  - rewrite resolve_contact_points_acc.
    destruct (resolve_contact_points cps2 defaultPort []) as [[eps2|e2]|p2];
      by simplify_eq.
  - done.
Qed.

(** Property X10.  A contact point without a colon gives one endpoint per
    resolved address, each with the default port.  A contact point
    [host:port] gives one endpoint per resolved address with that port,
    while the factory keeps the default port; whatever follows a second
    colon is ignored. *)
Theorem ResolveWithDefaultPort_single (host : string) (addrs : list string)
    (defaultPort : Z) :
  no_colon host = true →
  LookupHost host = (addrs, None) →
  ResolveWithDefaultPort [host] defaultPort
  = Returns (Some (DefaultEndpointFactory
                     {| defaultEndpointFactory.contactPoints :=
                          direct_endpoints addrs defaultPort;
                        defaultEndpointFactory.defaultPort := defaultPort |}),
             None)
  ∧ ∀ p port,
      no_colon p = true → Atoi p = (port, None) →
      ResolveWithDefaultPort [host +:+ ":" +:+ p] defaultPort
      = Returns (Some (DefaultEndpointFactory
                         {| defaultEndpointFactory.contactPoints :=
                              direct_endpoints addrs port;
                            defaultEndpointFactory.defaultPort := defaultPort |}),
                 None)
      ∧ ∀ rest,
          ResolveWithDefaultPort [host +:+ ":" +:+ p +:+ ":" +:+ rest] defaultPort
          = Returns (Some (DefaultEndpointFactory
                             {| defaultEndpointFactory.contactPoints :=
                                  direct_endpoints addrs port;
                                defaultEndpointFactory.defaultPort := defaultPort |}),
                     None).
Proof.
  intros Hhost Hlookup. unfold ResolveWithDefaultPort. split.
  - rewrite (resolve_contact_points_step host [] defaultPort [] host []
               (strings_Split_colon_no_colon host Hhost)).
    by rewrite Hlookup.
  - intros p port Hp Hatoi. split.
    + rewrite (resolve_contact_points_step _ [] defaultPort [] host [p]).
      * by rewrite Hlookup, Hatoi.
      * by rewrite (strings_Split_colon_app host p Hhost),
                   (strings_Split_colon_no_colon p Hp).
    + intros rest.
      rewrite (resolve_contact_points_step _ [] defaultPort [] host
                 (p :: strings_Split_colon rest)).
      * by rewrite Hlookup, Hatoi.
      * by rewrite (strings_Split_colon_app host _ Hhost),
                   (strings_Split_colon_app p rest Hp).
Qed.

(** Property X11.  The factory that [ResolveWithDefaultPort] returns
    creates endpoints with the default port it was given, whatever ports
    the contact points carried; for [Resolve] that port is 9042.  [Create]
    of the direct strategy leaves the store of TLS configurations as it
    is. *)
Theorem ResolveWithDefaultPort_then_Create (contactPoints : list string)
    (defaultPort : Z) (f : EndpointFactory) (row : Row) (peer : Value)
    (perr : option error) (rpc : IP) (σ : store) :
  ResolveWithDefaultPort contactPoints defaultPort = Returns (Some f, None) →
  ByName row "peer" = Returns (peer, perr) →
  defaultEndpointFactory.is_fatal perr = false →
  ByName row "rpc_address" = Returns (VIP rpc, None) →
  ¬ unspecified rpc →
  EndpointFactory_Create f row σ
  = Returns ((Some (DefaultEndpoint
                      {| defaultEndpoint.addr :=
                           IP_String rpc +:+ ":" +:+ itoa defaultPort |}),
              None), σ)
  ∧ (defaultPort = 9042 → Resolve contactPoints = Returns (Some f, None)).
Proof.
  intros Hr Hpeer Hfatal Hrpc Hz. split.
  - unfold ResolveWithDefaultPort in Hr.
    destruct (resolve_contact_points_returns contactPoints defaultPort [])
      as [[eps|e] Heps]; rewrite Heps in Hr; [|discriminate Hr].
    unfold mbind, outcome_bind, mret, outcome_ret in Hr. simplify_eq.
    cbn [EndpointFactory_Create].
    rewrite (Create_after_lookups _ row peer perr rpc Hpeer Hfatal Hrpc).
    by rewrite (unspecified_dec _ Hz).
  - intros ->. exact Hr.
Qed.

End DirectResolution.

(** ** Error paths of the two [Create] methods *)

Section CreateErrors.
Context `{Codec} `{X509} `{!Http} `{Net}.

(** Property X12.  [Create] of the direct strategy: an error of reading
    [peer] other than [ColumnNameNotFound] is returned at once, whatever
    [rpc_address] holds; otherwise an error of reading [rpc_address] is
    returned; an [rpc_address] that decodes without error to anything but
    an address (nil included) panics on the conversion; a panic of either
    read is a panic of [Create]. *)
Theorem direct_Create_error_paths (d : defaultEndpointFactory.t) (row : Row) :
  (∀ peer e,
     ByName row "peer" = Returns (peer, Some e) →
     errors_Is_ColumnNameNotFound e = false →
     defaultEndpointFactory.Create d row = Returns (None, Some e))
  ∧ (∀ peer perr rpcAddress e,
       ByName row "peer" = Returns (peer, perr) →
       defaultEndpointFactory.is_fatal perr = false →
       ByName row "rpc_address" = Returns (rpcAddress, Some e) →
       defaultEndpointFactory.Create d row = Returns (None, Some e))
  ∧ (∀ peer perr rpcAddress,
       ByName row "peer" = Returns (peer, perr) →
       defaultEndpointFactory.is_fatal perr = false →
       ByName row "rpc_address" = Returns (rpcAddress, None) →
       (∀ ip, rpcAddress ≠ VIP ip) →
       defaultEndpointFactory.Create d row = Panics (InterfaceConversion "net.IP"))
  ∧ (∀ p, ByName row "peer" = Panics p →
          defaultEndpointFactory.Create d row = Panics p)
  ∧ (∀ peer perr p,
       ByName row "peer" = Returns (peer, perr) →
       defaultEndpointFactory.is_fatal perr = false →
       ByName row "rpc_address" = Panics p →
       defaultEndpointFactory.Create d row = Panics p).
Proof.
  unfold defaultEndpointFactory.Create.
  split; [|split; [|split; [|split]]].
  - intros peer e -> He. cbn [mbind outcome_bind defaultEndpointFactory.is_fatal].
    by rewrite He.
  - intros peer perr rpcAddress e -> Hfatal Hrpc. cbn [mbind outcome_bind].
    by rewrite Hfatal, Hrpc.
  - intros peer perr rpcAddress -> Hfatal Hrpc Hip. cbn [mbind outcome_bind].
    rewrite Hfatal, Hrpc. destruct rpcAddress as [|ip|u|s]; try done.
    by destruct (Hip ip).
  - by intros p ->.
  - intros peer perr p -> Hfatal Hrpc. cbn [mbind outcome_bind].
    by rewrite Hfatal, Hrpc.
Qed.

(** Property X13.  [Create] of the cloud strategy: an error of reading
    [host_id], [ColumnNameNotFound] for a missing column included, is
    returned with no endpoint and without any configuration being built
    (the store is unchanged); a [host_id] that decodes without error to
    anything but a UUID (nil included) panics on the conversion. *)
Theorem cloud_Create_error_paths (a : astraResolver.t) (row : Row) (σ : store) :
  (∀ hostId e,
     ByName row "host_id" = Returns (hostId, Some e) →
     astraResolver.Create a row σ = Returns ((None, Some e), σ))
  ∧ (∀ hostId,
       ByName row "host_id" = Returns (hostId, None) →
       (∀ u, hostId ≠ VUUID u) →
       astraResolver.Create a row σ = Panics (InterfaceConversion "primitive.UUID"))
  ∧ (∀ p, ByName row "host_id" = Panics p → astraResolver.Create a row σ = Panics p).
Proof.
  unfold astraResolver.Create, mbind, Go_bind.
  split; [|split].
  - by intros hostId e ->.
  - intros hostId -> Hu. cbn [lift]. destruct hostId as [|ip|u|s]; try done.
    by destruct (Hu u).
  - by intros p ->.
Qed.

(** Property X14.  The four functions that return a result and an error
    ([Create] of either strategy, [ResolveWithDefaultPort] and
    [ResolveAstra]) return exactly one of them: an endpoint or a factory
    with a nil error, or nil with an error. *)
Theorem result_xor_error :
  (∀ d row oe oerr,
     defaultEndpointFactory.Create d row = Returns (oe, oerr) →
     (is_Some oe ∧ oerr = None) ∨ (oe = None ∧ is_Some oerr))
  ∧ (∀ a row σ oe oerr σ',
       astraResolver.Create a row σ = Returns ((oe, oerr), σ') →
       (is_Some oe ∧ oerr = None) ∨ (oe = None ∧ is_Some oerr))
  ∧ (∀ contactPoints defaultPort fac oerr,
       ResolveWithDefaultPort contactPoints defaultPort = Returns (fac, oerr) →
       (is_Some fac ∧ oerr = None) ∨ (fac = None ∧ is_Some oerr))
  ∧ (∀ bundle σ fac oerr σ',
       ResolveAstra bundle σ = Returns ((fac, oerr), σ') →
       (is_Some fac ∧ oerr = None) ∨ (fac = None ∧ is_Some oerr)).
Proof.
  split; [|split; [|split]].
  - intros d row oe oerr.
    unfold defaultEndpointFactory.Create, mbind, outcome_bind, mret, outcome_ret,
      defaultEndpointFactory.is_fatal.
    intros Hc. repeat case_match; simplify_eq; by eauto.
  - intros a row σ oe oerr σ'.
    unfold astraResolver.Create, mbind, Go_bind, mret, Go_ret, lift.
    intros Hc. repeat case_match; simplify_eq; by eauto.
  - intros contactPoints defaultPort fac oerr.
    unfold ResolveWithDefaultPort, mbind, outcome_bind, mret, outcome_ret.
    intros Hc. repeat case_match; simplify_eq; by eauto.
  - intros bundle σ fac oerr σ' Hr.
    pose proof (ResolveAstra_returns_valid _ _ _ _ Hr) as Hvalid.
    destruct (ResolveAstra_run bundle σ Hvalid) as (σ1 & _ & Hrun).
    rewrite Hrun in Hr. repeat case_match; simplify_eq; by eauto.
Qed.

End CreateErrors.

(** ** The cloud bootstrap and the verification callback *)

Section CloudBootstrap.
Context `{Codec} `{X509} `{!Http} `{Net}.

Lemma astra_contact_points_run (b : Bundle.t) (sni : string) (cps : list string)
    (acc : list Endpoint) (σ : store) (base : Config) :
  base_config b σ base →
  ∃ eps σ',
    astra_contact_points b sni cps acc σ = Returns ((acc ++ eps)%list, σ')
    ∧ length eps = length cps
    ∧ preserved σ σ'
    ∧ ∀ i cp, cps !! i = Some cp →
        eps !! i = Some (AstraEndpoint
                           {| astraEndpoint.addr := sni;
                              astraEndpoint.tlsConfig := Some (length σ + i)%nat |})
        ∧ σ' !! (length σ + i)%nat
          = Some (per_node_config base b cp (length σ + i)%nat).
Proof.
  revert acc σ. induction cps as [|cp cps IH]; intros acc σ Hbase.
  - exists [], σ. simpl. unfold mret, Go_ret. rewrite app_nil_r.
    split; [done|]. split; [done|]. split; [apply preserved_refl|].
    intros i cp Hcp. by rewrite lookup_nil in Hcp.
  - cbn [astra_contact_points]. unfold mbind, Go_bind.
    rewrite (copyTLSConfig_spec b cp σ base Hbase).
    set (c0 := per_node_config base b cp (length σ)).
    set (e0 := AstraEndpoint {| astraEndpoint.addr := sni;
                                astraEndpoint.tlsConfig := Some (length σ) |}).
    assert (base_config b (σ ++ [c0])%list base) as Hbase1
      by (eapply base_config_preserved; [apply preserved_app | exact Hbase]).
    destruct (IH (acc ++ [e0])%list (σ ++ [c0])%list Hbase1)
      as (eps & σ' & Hrun & Hlen & Hpres & Heach).
    exists (e0 :: eps), σ'. rewrite Hrun.
    split; [by rewrite <- app_assoc|].
    split; [simpl; by rewrite Hlen|].
    split; [eapply preserved_trans; [apply preserved_app | exact Hpres]|].
    intros i cp' Hcp'. destruct i as [|i]; simpl in Hcp'.
    + simplify_eq. rewrite Nat.add_0_r. split; [done|].
      apply Hpres. by apply list_lookup_middle.
    + destruct (Heach i cp' Hcp') as [He Hc].
      rewrite length_app in He, Hc. simpl in He, Hc.
      replace (length σ + S i)%nat with (length σ + 1 + i)%nat by lia.
      by split.
Qed.

(** The successful run of [ResolveAstra]: the contact points take
    consecutive new addresses of the store, from [start] on. *)
Lemma ResolveAstra_success (bundle : Bundle.t) (σ : store) (base : Config)
    (metadata : astraMetadata) :
  base_config bundle σ base →
  bootstrap_metadata bundle σ = Some metadata →
  ∃ endpoints σ' start,
    ResolveAstra bundle σ
    = Returns ((Some (AstraResolver
                        {| astraResolver.contactPoints := endpoints;
                           astraResolver.host := SniProxyAddress (ContactInfo metadata);
                           astraResolver.bundle := bundle |}),
                None), σ')
    ∧ preserved σ σ'
    ∧ length endpoints = length (ContactPoints (ContactInfo metadata))
    ∧ ∀ i cp, ContactPoints (ContactInfo metadata) !! i = Some cp →
        endpoints !! i
        = Some (AstraEndpoint
                  {| astraEndpoint.addr := SniProxyAddress (ContactInfo metadata);
                     astraEndpoint.tlsConfig := Some (start + i)%nat |})
        ∧ σ' !! (start + i)%nat = Some (per_node_config base bundle cp (start + i)%nat).
Proof.
  intros Hbase Hmd.
  destruct (ResolveAstra_run bundle σ (base_config_valid _ _ _ Hbase))
    as (σ1 & Hpres1 & Hrun).
  rewrite Hrun. unfold bootstrap_metadata in Hmd.
  destruct (http_Get _ _) as [response|e]; [|discriminate Hmd].
  destruct (Body response) as [body [e|]]; [discriminate Hmd|].
  destruct (json_Unmarshal body) as [[md|] [e|]]; try discriminate Hmd.
  injection Hmd as ->.
  assert (base_config bundle σ1 base) as Hbase1 by (by eapply base_config_preserved).
  destruct (astra_contact_points_run bundle (SniProxyAddress (ContactInfo metadata))
              (ContactPoints (ContactInfo metadata)) [] σ1 base Hbase1)
    as (eps & σ' & Hcp & Hlen & Hpres & Heach).
  rewrite Hcp. exists eps, σ', (length σ1). split; [done|].
  split; [by eapply preserved_trans|]. split; [exact Hlen|]. exact Heach.
Qed.

(** Property X15.  When the bundle has a base configuration and the
    metadata is fetched and decoded, [ResolveAstra] returns a factory with
    one contact point per entry of the metadata's [contact_points], in
    order: each has the [sni_proxy_address] as its address and a
    configuration of its own in the store, built from the base for that
    entry as server name, so that its key is the address, ":" and the
    entry.  The factory keeps the [sni_proxy_address] and the bundle, and
    the objects the store held are unchanged. *)
Theorem ResolveAstra_contact_points (bundle : Bundle.t) (σ : store) (base : Config)
    (metadata : astraMetadata) :
  base_config bundle σ base →
  bootstrap_metadata bundle σ = Some metadata →
  ∃ endpoints σ',
    ResolveAstra bundle σ
    = Returns ((Some (AstraResolver
                        {| astraResolver.contactPoints := endpoints;
                           astraResolver.host := SniProxyAddress (ContactInfo metadata);
                           astraResolver.bundle := bundle |}),
                None), σ')
    ∧ preserved σ σ'
    ∧ length endpoints = length (ContactPoints (ContactInfo metadata))
    ∧ ∀ i cp, ContactPoints (ContactInfo metadata) !! i = Some cp →
        ∃ l, endpoints !! i
             = Some (AstraEndpoint
                       {| astraEndpoint.addr := SniProxyAddress (ContactInfo metadata);
                          astraEndpoint.tlsConfig := Some l |})
             ∧ σ' !! l = Some (per_node_config base bundle cp l)
             ∧ astraEndpoint.Key
                 {| astraEndpoint.addr := SniProxyAddress (ContactInfo metadata);
                    astraEndpoint.tlsConfig := Some l |} σ'
               = Returns (SniProxyAddress (ContactInfo metadata) +:+ ":" +:+ cp, σ').
Proof.
  intros Hbase Hmd.
  destruct (ResolveAstra_success bundle σ base metadata Hbase Hmd)
    as (eps & σ' & start & Hrun & Hpres & Hlen & Heach).
  exists eps, σ'. split; [exact Hrun|]. split; [exact Hpres|]. split; [exact Hlen|].
  intros i cp Hi. destruct (Heach i cp Hi) as [He Hc].
  exists (start + i)%nat. split; [exact He|]. split; [exact Hc|].
  by rewrite (astra_Key_spec _ _ _ _ Hc).
Qed.

(** Property X23.  Two contact points of the factory [ResolveAstra]
    returns have equal keys exactly when the metadata entries they were
    made from are equal; at different positions they never share a
    configuration, equal entries included. *)
Theorem ResolveAstra_contact_point_keys (bundle : Bundle.t) (σ : store) (base : Config)
    (metadata : astraMetadata) :
  base_config bundle σ base →
  bootstrap_metadata bundle σ = Some metadata →
  ∃ f σ',
    ResolveAstra bundle σ = Returns ((Some f, None), σ')
    ∧ ∀ i j cpi cpj,
        ContactPoints (ContactInfo metadata) !! i = Some cpi →
        ContactPoints (ContactInfo metadata) !! j = Some cpj →
        ∃ ei ej ki kj,
          EndpointFactory_ContactPoints f !! i = Some ei
          ∧ EndpointFactory_ContactPoints f !! j = Some ej
          ∧ Endpoint_Key ei σ' = Returns (ki, σ')
          ∧ Endpoint_Key ej σ' = Returns (kj, σ')
          ∧ (ki = kj ↔ cpi = cpj)
          ∧ (i ≠ j → Endpoint_TlsConfig ei ≠ Endpoint_TlsConfig ej).
Proof.
  intros Hbase Hmd.
  destruct (ResolveAstra_success bundle σ base metadata Hbase Hmd)
    as (eps & σ' & start & Hrun & Hpres & Hlen & Heach).
  eexists _, σ'. split; [exact Hrun|].
  intros i j cpi cpj Hi Hj.
  destruct (Heach i cpi Hi) as [Hei Hci]. destruct (Heach j cpj Hj) as [Hej Hcj].
  eexists _, _, _, _.
  cbn [EndpointFactory_ContactPoints astraResolver.ContactPoints
       astraResolver.contactPoints].
  split; [exact Hei|]. split; [exact Hej|]. cbn [Endpoint_Key].
  split; [exact (astra_Key_spec _ _ _ _ Hci)|].
  split; [exact (astra_Key_spec _ _ _ _ Hcj)|].
  cbn [per_node_config ServerName Endpoint_TlsConfig astraEndpoint.TlsConfig
       astraEndpoint.tlsConfig].
  split.
  - split; [|by intros ->].
    intros Heq. apply append_inj_length in Heq as [_ Heq]; [|done].
    by injection Heq.
  - intros Hij Heq. injection Heq as Heq. lia.
Qed.

(** Property X16.  When the body decodes without error but leaves the
    metadata pointer nil (the JSON text [null]), [ResolveAstra] does not
    return: it panics on the nil pointer. *)
Theorem ResolveAstra_nil_metadata_panics (bundle : Bundle.t) (σ : store)
    (response : Response) (body : string) :
  valid_bundle bundle σ →
  http_Get (Bundle.tlsConfig bundle ≫= (fun l => σ !! l)) (metadata_url bundle)
  = inl response →
  Body response = (body, None) →
  json_Unmarshal body = (None, None) →
  ResolveAstra bundle σ = Panics NilPointerDereference.
Proof.
  intros Hvalid Hget Hbody Hjson.
  destruct (ResolveAstra_run bundle σ Hvalid) as (σ1 & _ & ->).
  by rewrite Hget, Hbody, Hjson.
Qed.

(** Property X17.  A call of the verification callback never changes the
    store of configurations, and the [verifiedChains] argument has no
    influence on what it returns. *)
Theorem VerifyPeerCertificate_pure (f : verifyClosure) (rawCerts : list (list byte))
    (now : Time) (τ : store) :
  (∀ chains r τ',
     call_VerifyPeerCertificate f rawCerts chains now τ = Returns (r, τ') → τ' = τ)
  ∧ (∀ chains chains',
       call_VerifyPeerCertificate f rawCerts chains now τ
       = call_VerifyPeerCertificate f rawCerts chains' now τ).
Proof.
  split.
  - intros chains r τ'.
    unfold call_VerifyPeerCertificate, mbind, Go_bind, mret, Go_ret, load, lift.
    intros Hc. repeat case_match; by simplify_eq.
  - intros chains chains'. reflexivity.
Qed.

(** Property X18.  On an empty chain the callback never returns, so it
    never accepts: it panics, on the slice [certs[1:]] when its
    configuration is live. *)
Theorem VerifyPeerCertificate_empty_chain (f : verifyClosure)
    (chains : list (list Certificate)) (now : Time) (τ : store) :
  (∃ p, call_VerifyPeerCertificate f [] chains now τ = Panics p)
  ∧ (is_Some (captured_tlsConfig f ≫= (fun l => τ !! l)) →
     call_VerifyPeerCertificate f [] chains now τ = Panics (SliceBoundsOutOfRange 1 0)).
Proof.
  unfold call_VerifyPeerCertificate, mbind, Go_bind, load, option_bind.
  cbn [parse_certs].
  destruct (captured_tlsConfig f) as [l|]; [|split; [by eauto | by intros [? ?]]].
  destruct (τ !! l) as [cfg|]; [|split; [by eauto | by intros [? ?]]].
  split; [by eauto | done].
Qed.

Lemma parse_certs_first_failure (good : list (list byte)) (raw : list byte)
    (rest : list (list byte)) (e : error) :
  Forall (fun r => ∃ cert, ParseCertificate r = inl cert) good →
  ParseCertificate raw = inr e →
  parse_certs (good ++ raw :: rest)
  = inr (errorString ("tls: failed to parse certificate from server: " +:+ Error e)).
Proof.
  intros Hgood Hraw. induction Hgood as [|r good [cert Hr] _ IH]; simpl.
  - by rewrite Hraw.
  - by rewrite Hr, IH.
Qed.

(** Property X19.  When a certificate of the chain does not parse, the
    callback returns the parse error of the first such certificate, with
    the prefix [tls: failed to parse certificate from server: ], before
    it reads its configuration or verifies anything: the result is the
    same for every closure and every store. *)
Theorem VerifyPeerCertificate_first_parse_error (f : verifyClosure)
    (good : list (list byte)) (raw : list byte) (rest : list (list byte)) (e : error)
    (chains : list (list Certificate)) (now : Time) (τ : store) :
  Forall (fun r => ∃ cert, ParseCertificate r = inl cert) good →
  ParseCertificate raw = inr e →
  call_VerifyPeerCertificate f (good ++ raw :: rest) chains now τ
  = Returns (Some (errorString
                     ("tls: failed to parse certificate from server: " +:+ Error e)),
             τ).
Proof.
  intros Hgood Hraw. unfold call_VerifyPeerCertificate.
  by rewrite (parse_certs_first_failure good raw rest e Hgood Hraw).
Qed.

Lemma string_app_assoc (a b c : string) : (a +:+ b) +:+ c = a +:+ (b +:+ c).
Proof.
  induction a as [|x a IH]; [reflexivity|].
  change (String x ((a +:+ b) +:+ c) = String x (a +:+ (b +:+ c))). by f_equal.
Qed.

(** Property X20.  For two cloud endpoints with the same address, the
    keys are equal exactly when the server names of their configurations
    are equal. *)
Theorem astra_Key_same_address (addr : string) (l1 l2 : loc) (c1 c2 : Config)
    (τ : store) :
  τ !! l1 = Some c1 → τ !! l2 = Some c2 →
  (astraEndpoint.Key {| astraEndpoint.addr := addr;
                        astraEndpoint.tlsConfig := Some l1 |} τ
   = astraEndpoint.Key {| astraEndpoint.addr := addr;
                          astraEndpoint.tlsConfig := Some l2 |} τ
   ↔ ServerName c1 = ServerName c2).
Proof.
  intros H1' H2'. rewrite (astra_Key_spec addr l1 c1 τ H1'), (astra_Key_spec addr l2 c2 τ H2').
  split.
  - intros Heq. injection Heq as Heq.
    apply append_inj_length in Heq as [_ Heq]; [|done].
    by injection Heq.
  - by intros ->.
Qed.

(** Property X21.  The key alone does not determine the address and the
    server name: an endpoint with address [a:s] and server name [t] has
    the key of an endpoint with address [a] and server name [s:t]. *)
Theorem astra_Key_not_injective (a s t : string) (l1 l2 : loc) (c1 c2 : Config)
    (τ : store) :
  τ !! l1 = Some c1 → ServerName c1 = t →
  τ !! l2 = Some c2 → ServerName c2 = s +:+ ":" +:+ t →
  astraEndpoint.Key {| astraEndpoint.addr := a +:+ ":" +:+ s;
                       astraEndpoint.tlsConfig := Some l1 |} τ
  = astraEndpoint.Key {| astraEndpoint.addr := a;
                         astraEndpoint.tlsConfig := Some l2 |} τ.
Proof.
  intros H1' Ht H2' Hst.
  rewrite (astra_Key_spec _ l1 c1 τ H1'), (astra_Key_spec _ l2 c2 τ H2'), Ht, Hst.
  by rewrite !string_app_assoc.
Qed.

(** Property X22.  Every endpoint of the direct strategy, a contact point
    of the factory [ResolveWithDefaultPort] returns or a result of its
    [Create], has no TLS configuration ([TlsConfig()] is nil), and its key
    is its address, read without touching the store. *)
Theorem direct_endpoints_plain (contactPoints : list string) (defaultPort : Z)
    (f : EndpointFactory) (err : option error) :
  ResolveWithDefaultPort contactPoints defaultPort = Returns (Some f, err) →
  Forall (fun e => Endpoint_TlsConfig e = None
                   ∧ ∀ σ, Endpoint_Key e σ = Returns (Endpoint_Addr e, σ))
    (EndpointFactory_ContactPoints f)
  ∧ ∀ row τ e err' τ',
      EndpointFactory_Create f row τ = Returns ((Some e, err'), τ') →
      τ' = τ ∧ Endpoint_TlsConfig e = None
      ∧ ∀ σ, Endpoint_Key e σ = Returns (Endpoint_Addr e, σ).
Proof.
  assert (∀ e, Endpoint_IsResolved e = true →
            Endpoint_TlsConfig e = None
            ∧ ∀ σ, Endpoint_Key e σ = Returns (Endpoint_Addr e, σ)) as Hplain.
  { intros [e|a] He; [done | discriminate He]. }
  unfold ResolveWithDefaultPort, mbind, outcome_bind, mret, outcome_ret.
  destruct (resolve_contact_points contactPoints defaultPort [])
    as [[endpoints|e]|p] eqn:Hcp; [|done|done].
  intros ?; simplify_eq. split.
  - cbn [EndpointFactory_ContactPoints defaultEndpointFactory.ContactPoints
         defaultEndpointFactory.contactPoints].
    eapply Forall_impl; [|exact Hplain].
    eapply resolve_contact_points_resolved; [exact Hcp | apply Forall_nil_2].
  - intros row τ e err' τ'. cbn [EndpointFactory_Create]. unfold lift.
    destruct (defaultEndpointFactory.Create _ row) as [[oe oerr]|p] eqn:Hc; [|done].
    intros ?; simplify_eq. split; [done|].
    apply Hplain. eapply default_Create_resolved, Hc.
Qed.

End CloudBootstrap.

(** ** The further properties on concrete inputs *)

Lemma peer_only_unnamed :
  @unnamed sampleCodec [sampleColumn "peer" Inet] "rpc_address".
Proof. intros c Hc. apply list_elem_of_singleton in Hc as ->. discriminate. Qed.

Lemma ByName_absent_column_witness :
  @ByName sampleCodec
    (@Build_Row sampleCodec
       (@NewResultSet sampleCodec (sampleRows [sampleColumn "peer" Inet] []) tt) [])
    "rpc_address"
  = Returns (VNil, Some ColumnNameNotFound).
Proof.
  exact (@ByName_absent_column sampleCodec (sampleRows [sampleColumn "peer" Inet] []) tt
           [] "rpc_address" peer_only_unnamed).
Defined.

Lemma Row_ByPos_decodes_cell_witness :
  (r ← @ResultSet_Row sampleCodec
         (@NewResultSet sampleCodec
            (sampleRows sampleColumns (peerRow [x0a; x00; x00; x09])) tt) 0;
   @ByPos sampleCodec r 1)
  = Returns (VIP [x0a; x00; x00; x09], None).
Proof.
  exact (@Row_ByPos_decodes_cell sampleCodec
           (sampleRows sampleColumns (peerRow [x0a; x00; x00; x09])) tt 0 1
           (peerRow [x0a; x00; x00; x09]) (sampleColumn "rpc_address" Inet)
           [x0a; x00; x00; x09] eq_refl eq_refl eq_refl).
Defined.

Lemma sample_resolution_fails :
  @ResolveWithDefaultPort sampleNet ["10.0.0.1"; "10.0.0.3:9042"] 9042
  = Returns (None,
             Some (errorString
                     "unable to resolve contact point 10.0.0.3:9042: lookup 10.0.0.3: no such host")).
Proof. vm_compute; reflexivity. Qed.

Lemma ResolveWithDefaultPort_error_names_contact_point_witness :
  (None : option EndpointFactory) = None
  ∧ ∃ cp host rest e',
      cp ∈ ["10.0.0.1"; "10.0.0.3:9042"] ∧ strings_Split_colon cp = host :: rest
      ∧ (((@LookupHost sampleNet host).2 = Some e'
          ∧ errorString
              "unable to resolve contact point 10.0.0.3:9042: lookup 10.0.0.3: no such host"
            = errorString ("unable to resolve contact point " +:+ cp +:+ ": "
                             +:+ Error e'))
         ∨ (∃ p rest', rest = p :: rest' ∧ (@LookupHost sampleNet host).2 = None
                       ∧ (@Atoi sampleNet p).2 = Some e'
                       ∧ errorString
                           "unable to resolve contact point 10.0.0.3:9042: lookup 10.0.0.3: no such host"
                         = errorString ("contact point " +:+ cp
                                          +:+ " has invalid port: " +:+ Error e'))).
Proof.
  exact (@ResolveWithDefaultPort_error_names_contact_point sampleNet
           ["10.0.0.1"; "10.0.0.3:9042"] 9042 None _ sample_resolution_fails).
Defined.

Lemma ResolveWithDefaultPort_single_witness :
  @ResolveWithDefaultPort sampleNet ["10.0.0.2"] 9042
  = Returns (Some (DefaultEndpointFactory
                     {| defaultEndpointFactory.contactPoints :=
                          [DefaultEndpoint {| defaultEndpoint.addr := "10.0.0.2:9042" |}];
                        defaultEndpointFactory.defaultPort := 9042 |}), None)
  ∧ @ResolveWithDefaultPort sampleNet ["10.0.0.2:9043"] 9042
    = Returns (Some (DefaultEndpointFactory
                       {| defaultEndpointFactory.contactPoints :=
                            [DefaultEndpoint {| defaultEndpoint.addr := "10.0.0.2:9043" |}];
                          defaultEndpointFactory.defaultPort := 9042 |}), None)
  ∧ @ResolveWithDefaultPort sampleNet ["10.0.0.2:9043:ignored"] 9042
    = Returns (Some (DefaultEndpointFactory
                       {| defaultEndpointFactory.contactPoints :=
                            [DefaultEndpoint {| defaultEndpoint.addr := "10.0.0.2:9043" |}];
                          defaultEndpointFactory.defaultPort := 9042 |}), None).
Proof.
  destruct (@ResolveWithDefaultPort_single sampleNet "10.0.0.2" ["10.0.0.2"] 9042
              eq_refl eq_refl) as [Hhost Hport].
  split; [exact Hhost|].
  destruct (Hport "9043" 9043 eq_refl eq_refl) as [Hp Hrest].
  split; [exact Hp | exact (Hrest "ignored")].
Defined.

Lemma sample_peer (rpc : list byte) :
  @ByName sampleCodec (sampleRow sampleColumns (peerRow rpc)) "peer"
  = Returns (VIP [x0a; x00; x00; x05], None).
Proof. vm_compute; reflexivity. Qed.

Lemma sample_rpc_address :
  @ByName sampleCodec (sampleRow sampleColumns (peerRow [x0a; x00; x00; x09]))
    "rpc_address"
  = Returns (VIP [x0a; x00; x00; x09], None).
Proof. vm_compute; reflexivity. Qed.

Lemma sample_rpc_specified : ¬ unspecified [x0a; x00; x00; x09].
Proof. intros [Hz|[Hz|Hz]]; discriminate Hz. Qed.

Lemma ResolveWithDefaultPort_then_Create_witness :
  @EndpointFactory_Create sampleCodec toyX509 directFactory
    (sampleRow sampleColumns (peerRow [x0a; x00; x00; x09])) [sampleBase]
  = Returns ((Some (DefaultEndpoint
                      {| defaultEndpoint.addr :=
                           IP_String [x0a; x00; x00; x09] +:+ ":" +:+ itoa 9042 |}),
              None), [sampleBase])
  ∧ (9042 = 9042 →
     @Resolve sampleNet ["10.0.0.1"; "10.0.0.2:9043"] = Returns (Some directFactory, None)).
Proof.
  exact (@ResolveWithDefaultPort_then_Create sampleCodec toyX509 sampleNet
           ["10.0.0.1"; "10.0.0.2:9043"] 9042 directFactory
           (sampleRow sampleColumns (peerRow [x0a; x00; x00; x09]))
           (VIP [x0a; x00; x00; x05]) None [x0a; x00; x00; x09] [sampleBase]
           sample_ResolveWithDefaultPort (sample_peer [x0a; x00; x00; x09]) eq_refl
           sample_rpc_address sample_rpc_specified).
Defined.

Lemma sample_bootstrap_metadata :
  @bootstrap_metadata toyX509 sampleHttp (sampleBundle "metadata.example") [sampleBase]
  = Some sampleMetadata.
Proof. vm_compute; reflexivity. Qed.

Lemma ResolveAstra_contact_points_witness :
  ∃ endpoints σ',
    @ResolveAstra toyX509 sampleHttp (sampleBundle "metadata.example") [sampleBase]
    = Returns ((Some (AstraResolver
                        {| astraResolver.contactPoints := endpoints;
                           astraResolver.host :=
                             SniProxyAddress (ContactInfo sampleMetadata);
                           astraResolver.bundle := sampleBundle "metadata.example" |}),
                None), σ')
    ∧ @preserved toyX509 [sampleBase] σ'
    ∧ length endpoints = length (ContactPoints (ContactInfo sampleMetadata))
    ∧ ∀ i cp, ContactPoints (ContactInfo sampleMetadata) !! i = Some cp →
        ∃ l, endpoints !! i
             = Some (AstraEndpoint
                       {| astraEndpoint.addr :=
                            SniProxyAddress (ContactInfo sampleMetadata);
                          astraEndpoint.tlsConfig := Some l |})
             ∧ σ' !! l
               = Some (@per_node_config toyX509 sampleBase
                         (sampleBundle "metadata.example") cp l)
             ∧ @astraEndpoint.Key toyX509
                 {| astraEndpoint.addr := SniProxyAddress (ContactInfo sampleMetadata);
                    astraEndpoint.tlsConfig := Some l |} σ'
               = Returns (SniProxyAddress (ContactInfo sampleMetadata) +:+ ":" +:+ cp, σ').
Proof.
  exact (@ResolveAstra_contact_points toyX509 sampleHttp
           (sampleBundle "metadata.example") [sampleBase] sampleBase sampleMetadata
           (sampleBase_config "metadata.example") sample_bootstrap_metadata).
Defined.

Lemma sample_valid_bundle (h : string) :
  @valid_bundle toyX509 (sampleBundle h) [sampleBase].
Proof. by exists sampleBase. Qed.

Lemma ResolveAstra_nil_metadata_panics_witness :
  @ResolveAstra toyX509 nullHttp (sampleBundle "metadata.example") [sampleBase]
  = Panics NilPointerDereference.
Proof.
  exact (@ResolveAstra_nil_metadata_panics toyX509 nullHttp
           (sampleBundle "metadata.example") [sampleBase]
           {| StatusCode := 200; Body := ("null", None) |} "null"
           (sample_valid_bundle "metadata.example") eq_refl eq_refl eq_refl).
Defined.

Lemma sample_leaf_parses :
  Forall (fun r => ∃ cert, @ParseCertificate toyX509 r = inl cert)
    [leafFor x01 "metadata.example"].
Proof. apply Forall_singleton. by eexists. Qed.

Lemma VerifyPeerCertificate_first_parse_error_witness :
  @call_VerifyPeerCertificate toyX509
    {| captured_tlsConfig := None; captured_bundle := sampleBundle "metadata.example" |}
    ([leafFor x01 "metadata.example"] ++ [x05] :: [[x06]])%list [] 50%N []
  = Returns (Some (errorString
                     ("tls: failed to parse certificate from server: "
                        +:+ Error (errorString "x509: malformed certificate"))),
             []).
Proof.
  exact (@VerifyPeerCertificate_first_parse_error toyX509
           {| captured_tlsConfig := None;
              captured_bundle := sampleBundle "metadata.example" |}
           [leafFor x01 "metadata.example"] [x05] [[x06]]
           (errorString "x509: malformed certificate") [] 50%N []
           sample_leaf_parses eq_refl).
Defined.

Lemma astra_Key_same_address_witness :
  @astraEndpoint.Key toyX509
    {| astraEndpoint.addr := "proxy.example:29042"; astraEndpoint.tlsConfig := Some 2%nat |}
    sampleStore
  = @astraEndpoint.Key toyX509
      {| astraEndpoint.addr := "proxy.example:29042";
         astraEndpoint.tlsConfig := Some 3%nat |}
      sampleStore
  ↔ @ServerName toyX509
      (@per_node_config toyX509 sampleBase (sampleBundle "metadata.example") "node-a" 2)
    = @ServerName toyX509
        (@per_node_config toyX509 sampleBase (sampleBundle "metadata.example") "node-b" 3).
Proof.
  exact (@astra_Key_same_address toyX509 "proxy.example:29042" 2 3 _ _ sampleStore
           eq_refl eq_refl).
Defined.

Lemma astra_Key_not_injective_witness :
  @astraEndpoint.Key toyX509
    {| astraEndpoint.addr := "a" +:+ ":" +:+ "b"; astraEndpoint.tlsConfig := Some 0%nat |}
    colonStore
  = @astraEndpoint.Key toyX509
      {| astraEndpoint.addr := "a"; astraEndpoint.tlsConfig := Some 1%nat |} colonStore.
Proof.
  exact (@astra_Key_not_injective toyX509 "a" "b" "c" 0 1 _ _ colonStore
           eq_refl eq_refl eq_refl eq_refl).
Defined.

Lemma direct_endpoints_plain_witness :
  Forall (fun e => Endpoint_TlsConfig e = None
                   ∧ ∀ σ, @Endpoint_Key toyX509 e σ = Returns (Endpoint_Addr e, σ))
    (EndpointFactory_ContactPoints directFactory)
  ∧ ∀ row τ e err' τ',
      @EndpointFactory_Create sampleCodec toyX509 directFactory row τ
      = Returns ((Some e, err'), τ') →
      τ' = τ ∧ Endpoint_TlsConfig e = None
      ∧ ∀ σ, @Endpoint_Key toyX509 e σ = Returns (Endpoint_Addr e, σ).
Proof.
  exact (@direct_endpoints_plain sampleCodec toyX509 sampleNet
           ["10.0.0.1"; "10.0.0.2:9043"] 9042 directFactory None
           sample_ResolveWithDefaultPort).
Defined.

(** ** Runs of the resolution code *)

Example Resolve_empty :
  @Resolve sampleNet []
  = Returns (Some (DefaultEndpointFactory
                     {| defaultEndpointFactory.contactPoints := [];
                        defaultEndpointFactory.defaultPort := 9042 |}), None).
Proof. reflexivity. Qed.

Example Resolve_bad_port :
  @Resolve sampleNet ["10.0.0.1:http"]
  = Returns (None,
             Some (errorString
                     "contact point 10.0.0.1:http has invalid port: strconv.Atoi: parsing http: invalid syntax")).
Proof. vm_compute; reflexivity. Qed.

Example Resolve_ipv6_literal_splits_at_colons :
  strings_Split_colon "::1" = [""; ""; "1"].
Proof. reflexivity. Qed.

Example cloud_Create_missing_host_id :
  @astraResolver.Create sampleCodec toyX509 sampleResolver
    (sampleRow [sampleColumn "peer" Inet] [[x0a; x00; x00; x05]]) [sampleBase]
  = Returns ((None, Some ColumnNameNotFound), [sampleBase]).
Proof. vm_compute; reflexivity. Qed.

Lemma ResolveAstra_contact_point_keys_witness :
  ∃ f σ',
    @ResolveAstra toyX509 sampleHttp (sampleBundle "metadata.example") [sampleBase]
    = Returns ((Some f, None), σ')
    ∧ ∀ i j cpi cpj,
        ContactPoints (ContactInfo sampleMetadata) !! i = Some cpi →
        ContactPoints (ContactInfo sampleMetadata) !! j = Some cpj →
        ∃ ei ej ki kj,
          EndpointFactory_ContactPoints f !! i = Some ei
          ∧ EndpointFactory_ContactPoints f !! j = Some ej
          ∧ @Endpoint_Key toyX509 ei σ' = Returns (ki, σ')
          ∧ @Endpoint_Key toyX509 ej σ' = Returns (kj, σ')
          ∧ (ki = kj ↔ cpi = cpj)
          ∧ (i ≠ j → Endpoint_TlsConfig ei ≠ Endpoint_TlsConfig ej).
Proof.
  exact (@ResolveAstra_contact_point_keys toyX509 sampleHttp
           (sampleBundle "metadata.example") [sampleBase] sampleBase sampleMetadata
           (sampleBase_config "metadata.example") sample_bootstrap_metadata).
Defined.
